(** * CIS benchmark downloader: a shallow embedding of [cis_benchmarks.py]

    The program fetches a catalog of technologies, listens to the responses a
    headless browser receives, records one resource per discovered document
    and downloads every resource in turn.

    Python values are embedded as follows.
    - [str] is [string]; a character is one byte (for the response headers,
      which the HTTP client decodes as latin-1, one code point).
    - Values produced by a JSON parser are [json]; an object keeps its items
      in insertion order.  Floating-point numbers are outside the embedding.
    - A [dict] is an association list in insertion order ([Dict]).
    - An exception is a value of [exn]; a computation that may raise returns
      a [result], and one that also mutates shared state is a function from
      the state to the new state and a [result] ([M]).
    - The operating system and the network are parameters: a [FileSystem]
      and an [http_get] function. *)

From Stdlib Require Import List String Ascii ZArith Lia Bool Arith DecimalString.
Import ListNotations.
Open Scope string_scope.

(** ** Exceptions and results *)

Inductive exn : Type :=
| KeyError
| TypeError
| ValueError
| AttributeError
| JSONDecodeError
| HTTPError
| RequestException
| OSError.

Inductive result (A : Type) : Type :=
| Ok (a : A)
| Raise (e : exn).

Arguments Ok {A} a.
Arguments Raise {A} e.

Definition rbind {A B : Type} (r : result A) (k : A -> result B) : result B :=
  match r with
  | Ok a => k a
  | Raise e => Raise e
  end.

Declare Scope result_scope.
Delimit Scope result_scope with result.
Notation "'try' x <- r ; k" := (rbind r (fun x => k))
  (at level 10, x name, r at level 100, k at level 200) : result_scope.

(** A computation over a mutable state [S]: the state survives an exception,
    as the mutations of a Python object do. *)

Definition M (S A : Type) : Type := S -> S * result A.

Definition mret {S A : Type} (a : A) : M S A := fun s => (s, Ok a).

Definition mraise {S A : Type} (e : exn) : M S A := fun s => (s, Raise e).

Definition mbind {S A B : Type} (m : M S A) (k : A -> M S B) : M S B :=
  fun s =>
    match m s with
    | (s', Ok a) => k a s'
    | (s', Raise e) => (s', Raise e)
    end.

Definition mlift {S A : Type} (r : result A) : M S A := fun s => (s, r).

Definition mmodify {S : Type} (f : S -> S) : M S unit := fun s => (f s, Ok tt).

Definition mget {S : Type} : M S S := fun s => (s, Ok s).

Declare Scope monad_scope.
Delimit Scope monad_scope with monad.
Notation "'do' x <- m ; k" := (mbind m (fun x => k))
  (at level 10, x name, m at level 100, k at level 200) : monad_scope.
Notation "'run' m ; k" := (mbind m (fun _ => k))
  (at level 10, m at level 100, k at level 200) : monad_scope.

(** ** Strings *)

Module Str.

(** [s.startswith(p)] *)
Fixpoint startswith (s p : string) {struct p} : bool :=
  match p, s with
  | EmptyString, _ => true
  | String _ _, EmptyString => false
  | String b p', String a s' => Ascii.eqb a b && startswith s' p'
  end.

(** [s.endswith(suffix)] *)
Fixpoint endswith (s suffix : string) : bool :=
  if String.eqb s suffix then true
  else match s with
       | EmptyString => false
       | String _ s' => endswith s' suffix
       end.

Definition sep : string := "/".

(** [posixpath.join(a, b)]: an absolute [b] replaces [a]. *)
Definition join (a b : string) : string :=
  if startswith b sep then b
  else if String.eqb a "" || endswith a sep then a ++ b
  else a ++ sep ++ b.

(** [posixpath.basename(p)]: what follows the last separator. *)
Fixpoint basename_from (acc p : string) : string :=
  match p with
  | EmptyString => acc
  | String c p' =>
      if Ascii.eqb c "/" then basename_from "" p'
      else basename_from (acc ++ String c "") p'
  end.

Definition basename (p : string) : string := basename_from "" p.

(** ASCII lower case, as the header table folds its keys. *)
Definition lower_ascii (c : ascii) : ascii :=
  let n := nat_of_ascii c in
  if ((65 <=? n) && (n <=? 90))%nat then ascii_of_nat (n + 32) else c.

Fixpoint lower (s : string) : string :=
  match s with
  | EmptyString => EmptyString
  | String c s' => String (lower_ascii c) (lower s')
  end.

Definition of_nat (n : nat) : string := NilZero.string_of_uint (Nat.to_uint n).

Definition of_Z (z : Z) : string := NilZero.string_of_int (Z.to_int z).

End Str.

(** ** JSON values *)

#[warnings="-register-all"]
Inductive json : Type :=
| JNull
| JBool (b : bool)
| JInt (z : Z)
| JStr (s : string)
| JArr (items : list json)
| JObj (members : list (string * json)).

Fixpoint assoc_str {V : Type} (k : string) (l : list (string * V)) : option V :=
  match l with
  | [] => None
  | (k', v) :: l' => if String.eqb k k' then Some v else assoc_str k l'
  end.

(** [iter(v)]: a list yields its items, a dict its keys, a string its
    characters; nothing else is iterable. *)
Definition py_iter (v : json) : result (list json) :=
  match v with
  | JArr items => Ok items
  | JObj members => Ok (map (fun kv => JStr (fst kv)) members)
  | JStr s => Ok (map (fun c => JStr (String c "")) (list_ascii_of_string s))
  | JNull | JBool _ | JInt _ => Raise TypeError
  end.

(** [v[k]] for a string [k]: only a dict accepts it. *)
Definition py_getitem (v : json) (k : string) : result json :=
  match v with
  | JObj members =>
      match assoc_str k members with
      | Some x => Ok x
      | None => Raise KeyError
      end
  | _ => Raise TypeError
  end.

(** [v.keys()]: only a dict has the method. *)
Definition py_keys (v : json) : result (list string) :=
  match v with
  | JObj members => Ok (map fst members)
  | _ => Raise AttributeError
  end.

(** [json.loads(json.dumps(v))] gives back an equal value for every value a
    JSON parser produced. *)
Definition json_roundtrip (v : json) : json := v.

(** ** Dictionary keys *)

(** The hashable JSON values.  [True == 1] and [False == 0] in Python, and
    equal keys share one dictionary slot. *)
Inductive pykey : Type :=
| KNone
| KBool (b : bool)
| KInt (z : Z)
| KStr (s : string).

Definition py_hash (v : json) : result pykey :=
  match v with
  | JNull => Ok KNone
  | JBool b => Ok (KBool b)
  | JInt z => Ok (KInt z)
  | JStr s => Ok (KStr s)
  | JArr _ | JObj _ => Raise TypeError
  end.

Definition key_num (k : pykey) : option Z :=
  match k with
  | KBool true => Some 1%Z
  | KBool false => Some 0%Z
  | KInt z => Some z
  | KNone | KStr _ => None
  end.

Definition pykey_eqb (a b : pykey) : bool :=
  match a, b with
  | KNone, KNone => true
  | KStr s, KStr t => String.eqb s t
  | _, _ =>
      match key_num a, key_num b with
      | Some x, Some y => Z.eqb x y
      | _, _ => false
      end
  end.

(** [str(k)] *)
Definition py_str_key (k : pykey) : string :=
  match k with
  | KNone => "None"
  | KBool true => "True"
  | KBool false => "False"
  | KInt z => Str.of_Z z
  | KStr s => s
  end.

(** Key equality: [__eq__] on hashable values. *)
Class PyKey (K : Type) : Type := { key_eqb : K -> K -> bool }.

#[export] Instance PyKey_pykey : PyKey pykey := { key_eqb := pykey_eqb }.

#[export] Instance PyKey_string : PyKey string := { key_eqb := String.eqb }.

(** ** Dictionaries *)

Module Dict.

Section Ops.

Context {K V : Type} `{PyKey K}.

(** The items, in insertion order. *)
Definition t : Type := list (K * V).

(** [d[k]], [None] standing for [KeyError]. *)
Fixpoint get (d : t) (k : K) : option V :=
  match d with
  | [] => None
  | (k', v) :: d' => if key_eqb k k' then Some v else get d' k
  end.

(** [d[k] = v]: an equal key keeps its place and its key object, a new key
    goes last. *)
Fixpoint set (d : t) (k : K) (v : V) : t :=
  match d with
  | [] => [(k, v)]
  | (k', v') :: d' =>
      if key_eqb k k' then (k', v) :: d' else (k', v') :: set d' k v
  end.

(** Mutation in place of the value stored under [k]. *)
Fixpoint update (d : t) (k : K) (f : V -> V) : t :=
  match d with
  | [] => []
  | (k', v') :: d' =>
      if key_eqb k k' then (k', f v') :: d' else (k', v') :: update d' k f
  end.

(** [d.keys()] *)
Definition keys (d : t) : list K := map fst d.

(** No two items have equal keys, as in every Python dict. *)
Fixpoint wf (d : t) : Prop :=
  match d with
  | [] => True
  | (k, _) :: d' => get d' k = None /\ wf d'
  end.

End Ops.

Arguments t K V : clear implicits.

End Dict.

(** ** The file system *)

(** The operations the program calls, each over the state of the disk. *)
Class FileSystem (FS : Type) : Type := {
  (** [os.path.exists(path)] *)
  fs_exists : FS -> string -> bool;
  (** [open(path, "wb")] *)
  fs_open_wb : string -> M FS unit;
  (** [f.write(chunk)] on the file opened at [path] *)
  fs_write : string -> list Byte.byte -> M FS unit;
  (** [Path(path).mkdir(parents=True, exist_ok=True)] *)
  fs_mkdir : string -> M FS unit
}.

(** A disk keyed by the path text: a directory or the bytes of a file.  It
    is the file system at which statements are evaluated; it tells paths
    apart by their text and takes the directory a path lies in to be
    there. *)
Inductive node : Type :=
| Dir
| File (content : list Byte.byte).

Definition disk : Type := Dict.t string node.

Definition disk_exists (d : disk) (path : string) : bool :=
  match Dict.get d path with
  | Some _ => true
  | None => false
  end.

Definition disk_open_wb (path : string) : M disk unit :=
  fun d =>
    match Dict.get d path with
    | Some Dir => (d, Raise OSError)
    | _ => (Dict.set d path (File []), Ok tt)
    end.

Definition disk_write (path : string) (chunk : list Byte.byte) : M disk unit :=
  fun d =>
    match Dict.get d path with
    | Some (File content) => (Dict.set d path (File (content ++ chunk)), Ok tt)
    | _ => (d, Raise OSError)
    end.

Definition disk_mkdir (path : string) : M disk unit :=
  fun d =>
    match Dict.get d path with
    | Some (File _) => (d, Raise OSError)
    | Some Dir => (d, Ok tt)
    | None => (Dict.set d path Dir, Ok tt)
    end.

#[export] Instance FileSystem_disk : FileSystem disk := {
  fs_exists := disk_exists;
  fs_open_wb := disk_open_wb;
  fs_write := disk_write;
  fs_mkdir := disk_mkdir
}.

(** ** HTTP *)

Record request : Type := {
  req_url : string;
  req_headers : list (string * string);
  req_cookies : list (string * string)
}.

(** What the program reads of a response: the status, the header table, the
    result of [.json()] and the chunks [iter_content] yields, followed by the
    exception that interrupts the stream, if any. *)
Record http_response : Type := {
  status_code : Z;
  headers : list (string * string);
  json_body : result json;
  content : list (list Byte.byte);
  content_error : option exn
}.

(** [response.raise_for_status()]: client and server errors raise. *)
Definition raise_for_status (response : http_response) : result unit :=
  if ((400 <=? status_code response) && (status_code response <? 600))%Z
  then Raise HTTPError
  else Ok tt.

(** [headers.get(name)] on the case-insensitive header table. *)
Fixpoint headers_get (h : list (string * string)) (name : string) : option string :=
  match h with
  | [] => None
  | (k, v) :: h' =>
      if String.eqb (Str.lower k) (Str.lower name) then Some v else headers_get h' name
  end.

(** ** [int(s)] on a string *)

Module PyInt.

(** The characters [int] strips: ASCII white space, and the two latin-1
    characters Unicode counts as spaces. *)
Definition is_space (c : ascii) : bool :=
  existsb (Nat.eqb (nat_of_ascii c)) [9; 10; 11; 12; 13; 32; 133; 160]%nat.

Fixpoint lstrip (s : string) : string :=
  match s with
  | EmptyString => EmptyString
  | String c s' => if is_space c then lstrip s' else s
  end.

Fixpoint rstrip (s : string) : string :=
  match s with
  | EmptyString => EmptyString
  | String c s' =>
      let r := rstrip s' in
      if String.eqb r "" && is_space c then EmptyString else String c r
  end.

Definition strip (s : string) : string := rstrip (lstrip s).

Definition digit_of (c : ascii) : option Z :=
  let n := nat_of_ascii c in
  if ((48 <=? n) && (n <=? 57))%nat then Some (Z.of_nat (n - 48)) else None.

(** Decimal digits, single underscores allowed between two digits.
    [after_digit] tells whether the previous character was a digit; the
    result is the value and the number of digits read. *)
Fixpoint digits (s : string) (after_digit : bool) (acc : Z) (count : nat)
  : option (Z * nat) :=
  match s with
  | EmptyString => if after_digit then Some (acc, count) else None
  | String c s' =>
      if Ascii.eqb c "_" then
        if after_digit then digits s' false acc count else None
      else
        match digit_of c with
        | Some d => digits s' true (10 * acc + d)%Z (S count)
        | None => None
        end
  end.

(** The interpreter refuses literals of more digits than this. *)
Definition max_str_digits : nat := 4300.

Definition signed (s : string) : bool * string :=
  match s with
  | String c s' =>
      if Ascii.eqb c "+" then (false, s')
      else if Ascii.eqb c "-" then (true, s')
      else (false, s)
  | EmptyString => (false, s)
  end.

Definition of_string (s : string) : result Z :=
  let (negative, body) := signed (strip s) in
  match digits body false 0%Z 0%nat with
  | Some (v, n) =>
      if (n <=? max_str_digits)%nat
      then Ok (if negative then (- v)%Z else v)
      else Raise ValueError
  | None => Raise ValueError
  end.

End PyInt.

(** Line 62: [int(response.headers.get("content-length", 0))]. *)
Definition total_size_of (response : http_response) : result Z :=
  match headers_get (headers response) "content-length" with
  | None => Ok 0%Z
  | Some v => PyInt.of_string v
  end.

(** ** The world a run acts on *)

(** What reaches the terminal: printed text and the progress display. *)
Inductive output : Type :=
| Print (text : string)
| ProgressTask (description : string) (total : Z)
| ProgressAdvance (amount : nat).

Record world (FS : Type) : Type := {
  fs : FS;
  console : list output;
  sent : list request
}.

Arguments Build_world {FS} _ _ _.
Arguments fs {FS} _.
Arguments console {FS} _.
Arguments sent {FS} _.

Section Effects.

Context {FS : Type} `{FileSystem FS}.

(** [requests.get]: the outcome may depend on the requests sent before. *)
Variable http_get : list request -> request -> result http_response.

Definition emit (o : output) : M (world FS) unit :=
  mmodify (fun w => Build_world (fs w) (console w ++ [o]) (sent w)).

Definition on_fs {A : Type} (m : M FS A) : M (world FS) A :=
  fun w =>
    let (fs', r) := m (fs w) in
    (Build_world fs' (console w) (sent w), r).

Definition requests_get (req : request) : M (world FS) http_response :=
  fun w =>
    (Build_world (fs w) (console w) (sent w ++ [req]), http_get (sent w) req).

(** ** [create_directory] *)

Definition create_directory (base_path : string) : M (world FS) string :=
  (run on_fs (fs_mkdir base_path);
   mret base_path)%monad.

(** ** [download_benchmark_file] *)

Definition carriage_return : string := String (ascii_of_nat 13) "".

(** Lines 66-69: every non-empty chunk is written, then the display
    advances by its length. *)
Fixpoint write_chunks (file_path : string) (chunks : list (list Byte.byte))
  : M (world FS) unit :=
  match chunks with
  | [] => mret tt
  | chunk :: rest =>
      match chunk with
      | [] => write_chunks file_path rest
      | _ :: _ =>
          (run on_fs (fs_write file_path chunk);
           run emit (ProgressAdvance (List.length chunk));
           write_chunks file_path rest)%monad
      end
  end.

Definition download_benchmark_file
  (document_id : pykey) (download_url file_path progress_indicator : string)
  : M (world FS) unit :=
  fun w =>
    let file_name := Str.basename file_path in
    if fs_exists (fs w) file_path then
      (run emit (Print (carriage_return ++ progress_indicator
                          ++ " File already exists: " ++ file_name));
       mret tt)%monad w
    else
      let cookies := [("documentId", py_str_key document_id)] in
      (do response <- requests_get
            {| req_url := download_url; req_headers := []; req_cookies := cookies |};
       run mlift (raise_for_status response);
       do total_size <- mlift (total_size_of response);
       run on_fs (fs_open_wb file_path);
       run emit (ProgressTask (file_name ++ " Downloading...") total_size);
       run write_chunks file_path (content response);
       match content_error response with
       | Some e => mraise e
       | None => mret tt
       end)%monad w.

End Effects.

(** ** [extract_document_info] *)

(** The value stored per document id: the dict with the two keys
    ["pardot-id"] and ["filename"]. *)
Record document_entry : Type := {
  pardot_id : json;
  filename : json
}.

Definition document_info : Type := Dict.t pykey document_entry.

(** Lines 88-90, for one document: the subscripts are evaluated in the
    order of the three assignments. *)
Definition read_document (document : json) : result (pykey * document_entry) :=
  (try id <- py_getitem document "id";
   try key <- py_hash id;
   try pardot <- py_getitem document "pardot-id";
   try name <- py_getitem document "filename";
   Ok (key, {| pardot_id := pardot; filename := name |}))%result.

(** Line 87: the loop over the documents of one category. *)
Fixpoint extract_documents (documents : list json) (info : document_info)
  : result document_info :=
  match documents with
  | [] => Ok info
  | document :: rest =>
      (try kv <- read_document document;
       extract_documents rest (Dict.set info (fst kv) (snd kv)))%result
  end.

(** Line 86: the loop over the categories. *)
Fixpoint extract_categories (categories : list json) (info : document_info)
  : result document_info :=
  match categories with
  | [] => Ok info
  | category :: rest =>
      (try documents_value <- py_getitem category "documents";
       try documents <- py_iter documents_value;
       try info' <- extract_documents documents info;
       extract_categories rest info')%result
  end.

Definition extract_document_info (json_data : json) : result document_info :=
  let dict_data := json_roundtrip json_data in
  (try categories <- py_iter dict_data;
   extract_categories categories [])%result.

(** ** [process_benchmark_response] *)

Record resource : Type := {
  resource_id : pykey;
  resource_filename : string;
  resource_pdf_url : string
}.

Record technology : Type := {
  tech_path : string;
  resource_list : list resource
}.

Definition technologies : Type := Dict.t string technology.

(** What the observer reads of a browser response: its URL and the result
    of [await response.json()]. *)
Record browser_response : Type := {
  response_url : string;
  response_json : result json
}.

Definition base_url : string := "https://learn.cisecurity.org".

(** [str + value]: only a string can be concatenated to a string. *)
Definition py_concat (a : string) (b : json) : result string :=
  match b with
  | JStr s => Ok (a ++ s)
  | _ => Raise TypeError
  end.

(** [os.path.join(a, b)]: [b] must be a string. *)
Definition py_path_join (a : string) (b : json) : result string :=
  match b with
  | JStr s => Ok (Str.join a s)
  | _ => Raise TypeError
  end.

Definition dict_lookup {K V S : Type} `{PyKey K} (d : Dict.t K V) (k : K) : M S V :=
  match Dict.get d k with
  | Some v => mret v
  | None => mraise KeyError
  end.

Definition append_resource (r : resource) (tech : technology) : technology :=
  {| tech_path := tech_path tech; resource_list := resource_list tech ++ [r] |}.

(** Lines 147-159, for one document id. *)
Definition add_resource (info : document_info) (tech_id : string) (resource_id : pykey)
  : M technologies unit :=
  (do entry <- dict_lookup info resource_id;
   do pdf_url <- mlift (py_concat base_url (pardot_id entry));
   do technologies_dict <- mget;
   do tech <- dict_lookup technologies_dict tech_id;
   do file_name <- mlift (py_path_join (tech_path tech) (filename entry));
   let benchmark_resource :=
     {| resource_id := resource_id;
        resource_filename := file_name;
        resource_pdf_url := pdf_url |} in
   mmodify (fun d => Dict.update d tech_id (append_resource benchmark_resource)))%monad.

(** Line 146: the loop over [document_info.keys()]. *)
Fixpoint add_resources (info : document_info) (tech_id : string)
  (resource_ids : list pykey) : M technologies unit :=
  match resource_ids with
  | [] => mret tt
  | resource_id :: rest =>
      (run add_resource info tech_id resource_id;
       add_resources info tech_id rest)%monad
  end.

(** Lines 143-159, for one technology id.  The keys are strings, so
    [str(tech_id)] is [tech_id]. *)
Definition process_technology (response : browser_response) (tech_id : string)
  : M technologies unit :=
  if Str.endswith (response_url response) (tech_id ++ "/benchmarks/latest") then
    (do json_data <- mlift (response_json response);
     do info <- mlift (extract_document_info json_data);
     add_resources info tech_id (Dict.keys info))%monad
  else mret tt.

(** Line 142: the loop over [technologies_dict.keys()]. *)
Fixpoint process_technologies (response : browser_response) (tech_ids : list string)
  : M technologies unit :=
  match tech_ids with
  | [] => mret tt
  | tech_id :: rest =>
      (run process_technology response tech_id;
       process_technologies response rest)%monad
  end.

Definition process_benchmark_response (response : browser_response)
  : M technologies unit :=
  fun technologies_dict =>
    process_technologies response (Dict.keys technologies_dict) technologies_dict.

(** ** [fetch_technology_categories] and [main] *)

Section Orchestration.

Context {FS : Type} `{FileSystem FS}.

Variable http_get : list request -> request -> result http_response.

(** [repr] of a list or a dict, which [str] prints for them. *)
Variable py_repr : json -> string.

(** [str(v)] *)
Definition py_str (v : json) : string :=
  match v with
  | JNull => "None"
  | JBool true => "True"
  | JBool false => "False"
  | JInt z => Str.of_Z z
  | JStr s => s
  | JArr _ | JObj _ => py_repr v
  end.

Definition quote : string := String (ascii_of_nat 34) "".

Definition catalog_request : request :=
  {| req_url := "https://downloads.cisecurity.org/technology";
     req_headers :=
       [ ("Host", "downloads.cisecurity.org");
         ("Sec-Ch-Ua-Platform", quote ++ "macOS" ++ quote);
         ("X-Requested-With", "XMLHttpRequest");
         ("Accept-Language", "en-US,en;q=0.9");
         ("Sec-Ch-Ua-Mobile", "?0");
         ("Accept", "*/*");
         ("Sec-Fetch-Site", "same-origin");
         ("Sec-Fetch-Mode", "cors");
         ("Sec-Fetch-Dest", "empty");
         ("Referer", "https://downloads.cisecurity.org/");
         ("Priority", "u=1, i") ];
     req_cookies := [] |}.

Definition technology_paths : Type := Dict.t string string.

(** Lines 125-127, for one item of a category. *)
Definition add_item (category_key : string) (item : json) (paths : technology_paths)
  : M (world FS) technology_paths :=
  (do title <- mlift (py_getitem item "title");
   do full_folder_path <- mlift (py_path_join category_key title);
   do id <- mlift (py_getitem item "id");
   let paths' := Dict.set paths (py_str id) full_folder_path in
   run create_directory full_folder_path;
   mret paths')%monad.

(** Line 124: the loop over the items of one category. *)
Fixpoint add_items (category_key : string) (items : list json) (paths : technology_paths)
  : M (world FS) technology_paths :=
  match items with
  | [] => mret paths
  | item :: rest =>
      (do paths' <- add_item category_key item paths;
       add_items category_key rest paths')%monad
  end.

(** Line 123: the loop over [categories_dict.keys()]. *)
Fixpoint add_categories (categories_dict : json) (category_keys : list string)
  (paths : technology_paths) : M (world FS) technology_paths :=
  match category_keys with
  | [] => mret paths
  | category_key :: rest =>
      (do items_value <- mlift (py_getitem categories_dict category_key);
       do items <- mlift (py_iter items_value);
       do paths' <- add_items category_key items paths;
       add_categories categories_dict rest paths')%monad
  end.

Definition fetch_technology_categories : M (world FS) technology_paths :=
  (do response <- requests_get http_get catalog_request;
   do response_json <- mlift (json_body response);
   let categories_dict := json_roundtrip response_json in
   do category_keys <- mlift (py_keys categories_dict);
   add_categories categories_dict category_keys [])%monad.

(** Lines 175-178 of [main]: one record per technology, no resource yet. *)
Fixpoint init_technologies (items : list (string * string)) (technologies_dict : technologies)
  : technologies :=
  match items with
  | [] => technologies_dict
  | (tech_id, path) :: rest =>
      init_technologies rest
        (Dict.set technologies_dict tech_id {| tech_path := path; resource_list := [] |})
  end.

(** Lines 194-197 of [main]: the tally. *)
Fixpoint count_benchmarks (technologies_dict : technologies) (tech_ids : list string)
  (total_benchmarks : nat) : result nat :=
  match tech_ids with
  | [] => Ok total_benchmarks
  | tech_id :: rest =>
      match Dict.get technologies_dict tech_id with
      | Some tech =>
          count_benchmarks technologies_dict rest
            (total_benchmarks + List.length (resource_list tech))
      | None => Raise KeyError
      end
  end.

(** Line 206: [f"{current_benchmark}/{total_benchmarks}"]. *)
Definition progress_label (current_benchmark total_benchmarks : nat) : string :=
  Str.of_nat current_benchmark ++ "/" ++ Str.of_nat total_benchmarks.

(** Lines 202-210: the loop over the resources of one technology; it
    returns the counter. *)
Fixpoint download_resources (resources_list : list resource)
  (total_benchmarks current_benchmark : nat) : M (world FS) nat :=
  match resources_list with
  | [] => mret current_benchmark
  | benchmark :: rest =>
      (run download_benchmark_file http_get
             (resource_id benchmark) (resource_pdf_url benchmark)
             (resource_filename benchmark)
             (progress_label current_benchmark total_benchmarks);
       download_resources rest total_benchmarks (current_benchmark + 1))%monad
  end.

(** Lines 200-210: the loop over [technologies_dict.keys()]. *)
Fixpoint download_technologies (technologies_dict : technologies) (tech_ids : list string)
  (total_benchmarks current_benchmark : nat) : M (world FS) nat :=
  match tech_ids with
  | [] => mret current_benchmark
  | tech_id :: rest =>
      (do tech <- dict_lookup technologies_dict tech_id;
       do current' <- download_resources (resource_list tech)
                        total_benchmarks current_benchmark;
       download_technologies technologies_dict rest total_benchmarks current')%monad
  end.

(** Lines 194-210 of [main]: the tally, then the downloads.  The browser
    session that fills [technologies_dict] before is not part of the
    embedding. *)
Definition main_downloads (technologies_dict : technologies) : M (world FS) unit :=
  (do total_benchmarks <-
        mlift (count_benchmarks technologies_dict (Dict.keys technologies_dict) 0);
   do last <- download_technologies technologies_dict (Dict.keys technologies_dict)
                total_benchmarks 1;
   mret tt)%monad.

End Orchestration.

(** ** Laws assumed of the parameters *)

(** [__eq__] on hashable values is an equivalence. *)
Class PyKeyLaws (K : Type) `{PyKey K} : Prop := {
  key_eqb_refl : forall a : K, key_eqb a a = true;
  key_eqb_sym : forall a b : K, key_eqb a b = key_eqb b a;
  key_eqb_trans : forall a b c : K,
    key_eqb a b = true -> key_eqb b c = true -> key_eqb a c = true
}.

Arguments PyKeyLaws K {_}.

(** Opening a file for writing makes its path exist, and neither opening
    nor writing removes a path. *)
Class FileSystemLaws (FS : Type) `{FileSystem FS} : Prop := {
  open_wb_creates : forall (d d' : FS) (path : string),
    fs_open_wb path d = (d', Ok tt) -> fs_exists d' path = true;
  open_wb_keeps : forall (d : FS) (path q : string),
    fs_exists d q = true -> fs_exists (fst (fs_open_wb path d)) q = true;
  write_keeps : forall (d : FS) (path q : string) (chunk : list Byte.byte),
    fs_exists d q = true -> fs_exists (fst (fs_write path chunk d)) q = true
}.

Arguments FileSystemLaws FS {_}.

(** ** Notions the statements use *)

(** The text [os.path.join] puts before a relative second argument: [dir]
    followed by a separator, or [dir] itself when it is empty or ends with
    one. *)
Definition with_sep (dir : string) : string :=
  if String.eqb dir "" || Str.endswith dir Str.sep then dir else dir ++ Str.sep.

(** The document records of a response, in the order the two loops of
    [extract_document_info] visit them. *)
Fixpoint documents_of_categories (categories : list json) : result (list json) :=
  match categories with
  | [] => Ok []
  | category :: rest =>
      (try documents_value <- py_getitem category "documents";
       try documents <- py_iter documents_value;
       try more <- documents_of_categories rest;
       Ok (documents ++ more)%list)%result
  end.

Definition all_documents (json_data : json) : result (list json) :=
  (try categories <- py_iter json_data;
   documents_of_categories categories)%result.

(** The record built for one item of the document mapping. *)
Definition record_of (path : string) (item : pykey * document_entry) : result resource :=
  (try pdf_url <- py_concat base_url (pardot_id (snd item));
   try file_name <- py_path_join path (filename (snd item));
   Ok {| resource_id := fst item;
         resource_filename := file_name;
         resource_pdf_url := pdf_url |})%result.

(** The records built for the items of a document mapping, up to the first
    item that raises. *)
Fixpoint records_of (path : string) (items : list (pykey * document_entry))
  : list resource * result unit :=
  match items with
  | [] => ([], Ok tt)
  | item :: rest =>
      match record_of path item with
      | Ok r => let (rs, res) := records_of path rest in (r :: rs, res)
      | Raise e => ([], Raise e)
      end
  end.

(** What one response adds to the technology [tech_id] of directory
    [path]. *)
Definition discovered (response : browser_response) (tech_id path : string)
  : list resource * result unit :=
  if Str.endswith (response_url response) (tech_id ++ "/benchmarks/latest") then
    match response_json response with
    | Ok json_data =>
        match extract_document_info json_data with
        | Ok info => records_of path info
        | Raise e => ([], Raise e)
        end
    | Raise e => ([], Raise e)
    end
  else ([], Ok tt).

Definition add_records (rs : list resource) (tech : technology) : technology :=
  {| tech_path := tech_path tech; resource_list := resource_list tech ++ rs |}.

(** The effect of one response on the items of the technology mapping,
    taken in order, up to the first technology whose processing raises. *)
Fixpoint discover_all (response : browser_response) (items : technologies)
  : technologies * result unit :=
  match items with
  | [] => ([], Ok tt)
  | (tech_id, tech) :: rest =>
      let (rs, res) := discovered response tech_id (tech_path tech) in
      match res with
      | Ok _ =>
          let (rest', res') := discover_all response rest in
          ((tech_id, add_records rs tech) :: rest', res')
      | Raise e => ((tech_id, add_records rs tech) :: rest, Raise e)
      end
  end.

(** The resources in catalog mapping order, and within a technology in
    append order. *)
Definition resources_of (technologies_dict : technologies) (tech_id : string)
  : list resource :=
  match Dict.get technologies_dict tech_id with
  | Some tech => resource_list tech
  | None => []
  end.

Definition resources_in_order (technologies_dict : technologies) : list resource :=
  flat_map (resources_of technologies_dict) (Dict.keys technologies_dict).

(** The downloads as the specification words them: the resources of that
    sequence, the [i]-th labelled [i/N] with [i] from 1 to the total [N],
    one after the other until one raises. *)
Definition labelled_from (first total : nat) (rs : list resource)
  : list (resource * string) :=
  map (fun ir => (snd ir, progress_label (fst ir) total))
      (combine (seq first (List.length rs)) rs).

Definition planned_downloads (technologies_dict : technologies)
  : list (resource * string) :=
  let rs := resources_in_order technologies_dict in
  labelled_from 1 (List.length rs) rs.

Section Sequential.

Context {FS : Type} `{FileSystem FS}.

Variable http_get : list request -> request -> result http_response.

Definition download_one (call : resource * string) : M (world FS) unit :=
  download_benchmark_file http_get
    (resource_id (fst call)) (resource_pdf_url (fst call))
    (resource_filename (fst call)) (snd call).

Fixpoint download_in_sequence (calls : list (resource * string)) : M (world FS) unit :=
  match calls with
  | [] => mret tt
  | call :: rest => (run download_one call; download_in_sequence rest)%monad
  end.

(** The request a download sends. *)
Definition download_request (r : resource) : request :=
  {| req_url := resource_pdf_url r;
     req_headers := [];
     req_cookies := [("documentId", py_str_key (resource_id r))] |}.

(** The world once the request of a download has gone out. *)
Definition after_request (w : world FS) (req : request) : world FS :=
  Build_world (fs w) (console w) (sent w ++ [req]).

(** A loop that returns its counter, seen as a sequence that returns
    nothing. *)
Definition counting (m : M (world FS) unit) (n : nat) : M (world FS) nat :=
  fun w =>
    match m w with
    | (w', Ok _) => (w', Ok n)
    | (w', Raise e) => (w', Raise e)
    end.

(** A computation that removes no path. *)
Definition keeps_paths {A : Type} (m : M (world FS) A) : Prop :=
  forall (w : world FS) (q : string),
    fs_exists (fs w) q = true -> fs_exists (fs (fst (m w))) q = true.

(** A computation that sends nothing. *)
Definition sends_nothing {A : Type} (m : M (world FS) A) : Prop :=
  forall w : world FS, sent (fst (m w)) = sent w.

End Sequential.

(** ** A concrete run *)

(** The catalog of two technologies whose ids end alike, the responses the
    browser may observe for them, and servers for the downloads. *)
Module Scenario.

Definition document (id pardot name : string) : json :=
  JObj [("id", JStr id); ("pardot-id", JStr pardot); ("filename", JStr name)].

Definition latest (documents : list json) : json :=
  JArr [JObj [("documents", JArr documents)]].

Definition linux : technology :=
  {| tech_path := "Operating Systems/Linux"; resource_list := [] |}.

Definition windows : technology :=
  {| tech_path := "Operating Systems/Windows"; resource_list := [] |}.

Definition catalog : technologies := [("7", linux); ("17", windows)].

Definition observed (tech_id : string) (documents : list json) : browser_response :=
  {| response_url :=
       "https://downloads.cisecurity.org/technology/" ++ tech_id ++ "/benchmarks/latest";
     response_json := Ok (latest documents) |}.

Definition pdf : list (list Byte.byte) :=
  [[Byte.x25; Byte.x50; Byte.x44; Byte.x46]; []; [Byte.x0a]].

Definition answer (status : Z) (response_headers : list (string * string))
  : http_response :=
  {| status_code := status;
     headers := response_headers;
     json_body := Raise JSONDecodeError;
     content := pdf;
     content_error := None |}.

(** A server that gives every request the same answer. *)
Definition server (status : Z) (response_headers : list (string * string))
  : list request -> request -> result http_response :=
  fun _ _ => Ok (answer status response_headers).

(** A server that answers 404 for one URL and 200 for the others. *)
Definition server_missing (missing_url : string)
  : list request -> request -> result http_response :=
  fun _ req =>
    if String.eqb (req_url req) missing_url
    then Ok (answer 404 [])
    else Ok (answer 200 [("Content-Length", "5")]).

(** The answer 304 Not Modified, which has no body, and a server that
    gives it to every request. *)
Definition not_modified : http_response :=
  {| status_code := 304;
     headers := [];
     json_body := Raise JSONDecodeError;
     content := [];
     content_error := None |}.

Definition server_not_modified : list request -> request -> result http_response :=
  fun _ _ => Ok not_modified.

(** The catalog endpoint answering with a status and a parsed body. *)
Definition catalog_server (status : Z) (body : result json)
  : list request -> request -> result http_response :=
  fun _ _ =>
    Ok {| status_code := status;
          headers := [];
          json_body := body;
          content := [];
          content_error := None |}.

Definition catalog_json : json :=
  JObj [("Operating Systems", JArr [JObj [("id", JStr "7"); ("title", JStr "Linux")]])].

Definition empty_world : world disk := Build_world [] [] [].

(** The world once the catalog phase has made the directories of the two
    technologies. *)
Definition ready_world : world disk :=
  Build_world
    [("Operating Systems", Dir);
     ("Operating Systems/Linux", Dir);
     ("Operating Systems/Windows", Dir)]
    [] [].

Definition three_documents : list json :=
  [document "d1" "/x1" "bench.pdf";
   document "d2" "/x2" "guide.pdf";
   document "d3" "/x3" "notes.pdf"].

(** The catalog after the response for technology 7 with three documents. *)
Definition discovered_catalog : technologies :=
  fst (process_benchmark_response (observed "7" three_documents) catalog).

End Scenario.

(** ** Further notions *)

(** Making a directory makes its path exist and removes no path. *)
Class DirectoryLaws (FS : Type) `{FileSystem FS} : Prop := {
  mkdir_creates : forall (d d' : FS) (path : string),
    fs_mkdir path d = (d', Ok tt) -> fs_exists d' path = true;
  mkdir_keeps : forall (d : FS) (path q : string),
    fs_exists d q = true -> fs_exists (fst (fs_mkdir path d)) q = true
}.

Arguments DirectoryLaws FS {_}.

(** Reading back what a path holds: the bytes of the file, [None] when
    there is no file to read. *)
Class FileReader (FS : Type) : Type := {
  fs_read : FS -> string -> option (list Byte.byte)
}.

#[export] Instance FileReader_disk : FileReader disk := {
  fs_read := fun d path =>
    match Dict.get d path with
    | Some (File content) => Some content
    | _ => None
    end
}.

(** A file just opened for writing is empty, and a write that returns adds
    its chunk at the end. *)
Class FileReaderLaws (FS : Type) `{FileSystem FS} `{FileReader FS} : Prop := {
  read_after_open : forall (d d' : FS) (path : string),
    fs_open_wb path d = (d', Ok tt) -> fs_read d' path = Some [];
  read_after_write : forall (d d' : FS) (path : string)
                            (chunk content : list Byte.byte),
    fs_write path chunk d = (d', Ok tt) ->
    fs_read d path = Some content ->
    fs_read d' path = Some (content ++ chunk)%list
}.

Arguments FileReaderLaws FS {_ _}.

(** [l] is [l'] with some of its elements left out, the others in their
    order. *)
Inductive subsequence {A : Type} : list A -> list A -> Prop :=
| subsequence_nil : subsequence [] []
| subsequence_skip : forall (a : A) (l l' : list A),
    subsequence l l' -> subsequence l (a :: l')
| subsequence_keep : forall (a : A) (l l' : list A),
    subsequence l l' -> subsequence (a :: l) (a :: l').

(** The notice line 52 prints for a download that is skipped. *)
Definition skip_notice (call : resource * string) : output :=
  Print (carriage_return ++ snd call ++ " File already exists: "
           ++ Str.basename (resource_filename (fst call))).

(** The steps of the progress display for the chunks of a body: one per
    non-empty chunk, of its length. *)
Definition advances (chunks : list (list Byte.byte)) : list output :=
  map (fun chunk => ProgressAdvance (List.length chunk))
      (filter (fun chunk => negb (Nat.eqb (List.length chunk) 0)) chunks).

(** A computation on the disk model that leaves the entry of [path] as it
    is. *)
Definition keeps_entry {A : Type} (path : string) (n : node) (m : M (world disk) A)
  : Prop :=
  forall w : world disk,
    Dict.get (fs w) path = Some n -> Dict.get (fs (fst (m w))) path = Some n.





(** Every directory of the first world is a directory of the second. *)
Definition same_directories (w1 w2 : world disk) : Prop :=
  forall p, Dict.get (fs w1) p = Some Dir -> Dict.get (fs w2) p = Some Dir.

(** The ids the URL of a response ends with. *)
Definition matches (response : browser_response) (tech_id : string) : bool :=
  Str.endswith (response_url response) (tech_id ++ "/benchmarks/latest").

(** The documents read one by one, up to the first that raises. *)
Fixpoint read_documents (documents : list json) : result (list (pykey * document_entry)) :=
  match documents with
  | [] => Ok []
  | document :: rest =>
      (try kv <- read_document document;
       try kvs <- read_documents rest;
       Ok (kv :: kvs))%result
  end.

(** ** Further cases *)

Module Cases.

(** A server no request reaches. *)
Definition unreachable : list request -> request -> result http_response :=
  fun _ _ => Raise RequestException.

(** A server whose stream breaks after the chunks of [Scenario.pdf]. *)
Definition interrupted : list request -> request -> result http_response :=
  fun _ _ =>
    Ok {| status_code := 200;
          headers := [("Content-Length", "9")];
          json_body := Raise JSONDecodeError;
          content := Scenario.pdf;
          content_error := Some RequestException |}.

Definition bench_path : string := "Operating Systems/Linux/bench.pdf".

Definition bench_url : string := "https://learn.cisecurity.org/x1".

Definition bench_request : request :=
  {| req_url := bench_url;
     req_headers := [];
     req_cookies := [("documentId", "d1")] |}.

Definition pdf_bytes : list Byte.byte :=
  [Byte.x25; Byte.x50; Byte.x44; Byte.x46; Byte.x0a].

(** A disk that holds the directory of a technology and an older file. *)
Definition used_world : world disk :=
  Build_world
    [("Operating Systems", Dir);
     ("Operating Systems/Linux", Dir);
     ("Operating Systems/Linux/guide.pdf", File [Byte.x6f; Byte.x6c; Byte.x64])]
    [] [].

(** A document without a file name. *)
Definition nameless (id pardot : string) : json :=
  JObj [("id", JStr id); ("pardot-id", JStr pardot)].

(** A document whose pardot id is a number. *)
Definition numbered (id name : string) : json :=
  JObj [("id", JStr id); ("pardot-id", JInt 5); ("filename", JStr name)].

(** A response for another technology than those of the catalog. *)
Definition foreign : browser_response :=
  {| response_url := "https://downloads.cisecurity.org/technology/42/benchmarks/latest";
     response_json := Raise JSONDecodeError |}.

(** A response for technology 7 whose body is not JSON. *)
Definition garbled : browser_response :=
  {| response_url := "https://downloads.cisecurity.org/technology/7/benchmarks/latest";
     response_json := Raise JSONDecodeError |}.

Definition bench : resource :=
  {| resource_id := KStr "d1";
     resource_filename := bench_path;
     resource_pdf_url := bench_url |}.

Definition no_repr : json -> string := fun _ => "".

End Cases.

(** * Properties *)

(** ** Strings *)

Lemma append_assoc (a b c : string) : (a ++ b) ++ c = a ++ (b ++ c).
Proof.
  induction a as [|x a IH]; simpl; [reflexivity | now rewrite IH].
Qed.

Lemma append_nil_r (a : string) : a ++ "" = a.
Proof.
  induction a as [|x a IH]; simpl; [reflexivity | now rewrite IH].
Qed.

Lemma startswith_app (p r : string) : Str.startswith (p ++ r) p = true.
Proof.
  induction p as [|x p IH]; simpl; [reflexivity |].
  now rewrite Ascii.eqb_refl, IH.
Qed.

Lemma startswith_inv (s p : string) :
  Str.startswith s p = true -> exists r, s = p ++ r.
Proof.
  revert s; induction p as [|x p IH]; intros s Hs.
  - exists s; reflexivity.
  - destruct s as [|y s]; simpl in Hs; [discriminate |].
    apply andb_true_iff in Hs as [Hxy Hs].
    apply Ascii.eqb_eq in Hxy; subst y.
    destruct (IH _ Hs) as [r ->].
    exists r; reflexivity.
Qed.





(** ** Dictionaries *)

#[export] Instance PyKeyLaws_pykey : PyKeyLaws pykey.
Proof.
  split.
  - intros [|[]| |]; simpl; auto using Z.eqb_refl, String.eqb_refl.
  - intros [|[]| |] [|[]| |]; simpl; auto using Z.eqb_sym, String.eqb_sym.
  - intros [|[]| |] [|[]| |] [|[]| |]; cbn [key_eqb PyKey_pykey pykey_eqb key_num];
      intros Hab Hbc; try discriminate; auto;
      rewrite ?Z.eqb_eq, ?String.eqb_eq in *; first [congruence | lia].
Qed.

#[export] Instance PyKeyLaws_string : PyKeyLaws string.
Proof.
  split; simpl.
  - apply String.eqb_refl.
  - apply String.eqb_sym.
  - intros a b c. rewrite !String.eqb_eq. congruence.
Qed.

Section DictLaws.

Context {K V : Type} `{PyKeyLaws K}.

Implicit Types (d : Dict.t K V) (k : K) (v : V).

Lemma key_eqb_false_l k1 k2 k3 :
  key_eqb k1 k2 = true -> key_eqb k1 k3 = false -> key_eqb k3 k2 = false.
Proof.
  intros H12 H13. destruct (key_eqb k3 k2) eqn:E; [| reflexivity].
  rewrite <- H13. symmetry. apply key_eqb_trans with k2; [assumption |].
  now rewrite key_eqb_sym.
Qed.

Lemma get_set_same d k v : Dict.get (Dict.set d k v) k = Some v.
Proof.
  induction d as [|[k' v'] d IH]; simpl.
  - now rewrite key_eqb_refl.
  - destruct (key_eqb k k') eqn:E; simpl; now rewrite E.
Qed.

Lemma get_set_other d k v k2 :
  key_eqb k k2 = false -> Dict.get (Dict.set d k v) k2 = Dict.get d k2.
Proof.
  intros Hk. induction d as [|[k' v'] d IH]; simpl.
  - rewrite key_eqb_sym. now rewrite Hk.
  - destruct (key_eqb k k') eqn:E; simpl.
    + now rewrite (key_eqb_false_l _ _ _ E Hk).
    + now rewrite IH.
Qed.

Lemma get_set_equal d k v k2 :
  key_eqb k k2 = true -> Dict.get (Dict.set d k v) k2 = Some v.
Proof.
  intros Hk. induction d as [|[k' v'] d IH]; simpl.
  - rewrite key_eqb_sym. now rewrite Hk.
  - destruct (key_eqb k k') eqn:E; simpl.
    + assert (key_eqb k2 k' = true) as ->; [| reflexivity].
      apply key_eqb_trans with k; [now rewrite key_eqb_sym | assumption].
    + assert (key_eqb k2 k' = false) as ->; [| assumption].
      destruct (key_eqb k2 k') eqn:E2; [| reflexivity].
      rewrite <- E. symmetry. now apply key_eqb_trans with k2.
Qed.

Lemma wf_set d k v : Dict.wf d -> Dict.wf (Dict.set d k v).
Proof.
  induction d as [|[k' v'] d IH]; simpl.
  - auto.
  - intros [Hk' Hd]. destruct (key_eqb k k') eqn:E; simpl.
    + auto.
    + split; [| auto]. rewrite get_set_other; assumption.
Qed.

Lemma get_none_in d k k' v' :
  Dict.get d k = None -> In (k', v') d -> key_eqb k k' = false.
Proof.
  induction d as [|[k0 v0] d IH]; simpl; [tauto |].
  destruct (key_eqb k k0) eqn:E; [discriminate |].
  intros Hd [Heq | Hin]; [congruence | auto].
Qed.

(** In a well-formed dictionary every item is found under its key. *)
Lemma get_in d k v : Dict.wf d -> In (k, v) d -> Dict.get d k = Some v.
Proof.
  induction d as [|[k0 v0] d IH]; simpl; [tauto |].
  intros [Hk0 Hd] [Heq | Hin].
  - injection Heq as -> ->. now rewrite key_eqb_refl.
  - rewrite key_eqb_sym, (get_none_in _ _ _ _ Hk0 Hin). auto.
Qed.

Lemma get_app_none (d1 d2 : Dict.t K V) k :
  Dict.get d1 k = None -> Dict.get (d1 ++ d2)%list k = Dict.get d2 k.
Proof.
  induction d1 as [|[k0 v0] d1 IH]; simpl; [reflexivity |].
  destruct (key_eqb k k0); [discriminate | assumption].
Qed.

Lemma update_app_none (d1 d2 : Dict.t K V) k (f : V -> V) :
  Dict.get d1 k = None ->
  Dict.update (d1 ++ d2)%list k f = (d1 ++ Dict.update d2 k f)%list.
Proof.
  induction d1 as [|[k0 v0] d1 IH]; simpl; [reflexivity |].
  destruct (key_eqb k k0); [discriminate |].
  intros Hd. now rewrite IH.
Qed.

Lemma get_update_same d k (f : V -> V) :
  Dict.get (Dict.update d k f) k = option_map f (Dict.get d k).
Proof.
  induction d as [|[k0 v0] d IH]; simpl; [reflexivity |].
  destruct (key_eqb k k0) eqn:E; simpl; now rewrite E.
Qed.

Lemma keys_update d k (f : V -> V) : Dict.keys (Dict.update d k f) = Dict.keys d.
Proof.
  unfold Dict.keys.
  induction d as [|[k0 v0] d IH]; simpl; [reflexivity |].
  destruct (key_eqb k k0); simpl; [reflexivity |].
  now rewrite IH.
Qed.

Lemma get_keys d k : In k (Dict.keys d) -> Dict.get d k <> None.
Proof.
  induction d as [|[k0 v0] d IH]; simpl; [tauto |].
  intros [-> | Hin].
  - now rewrite key_eqb_refl.
  - destruct (key_eqb k k0); [discriminate | auto].
Qed.

Lemma get_none_keys d k :
  Dict.get d k = None <-> existsb (key_eqb k) (Dict.keys d) = false.
Proof.
  induction d as [|[k0 v0] d IH]; simpl; [tauto |].
  destruct (key_eqb k k0); simpl; [split; discriminate | exact IH].
Qed.

Lemma update_ext d k (f g : V -> V) :
  (forall v, f v = g v) -> Dict.update d k f = Dict.update d k g.
Proof.
  intros Hfg. induction d as [|[k0 v0] d IH]; simpl; [reflexivity |].
  now rewrite Hfg, IH.
Qed.

Lemma update_id d k (f : V -> V) : (forall v, f v = v) -> Dict.update d k f = d.
Proof.
  intros Hf. induction d as [|[k0 v0] d IH]; simpl; [reflexivity |].
  rewrite Hf, IH. now destruct (key_eqb k k0).
Qed.

Lemma update_update d k (f g : V -> V) :
  Dict.update (Dict.update d k f) k g = Dict.update d k (fun v => g (f v)).
Proof.
  induction d as [|[k0 v0] d IH]; simpl; [reflexivity |].
  destruct (key_eqb k k0) eqn:E; simpl; rewrite E; [reflexivity | now rewrite IH].
Qed.

End DictLaws.

(** Well-formedness is a property of the keys alone. *)
Lemma wf_same_keys {K V W : Type} `{PyKeyLaws K} (d1 : Dict.t K V) (d2 : Dict.t K W) :
  Dict.keys d1 = Dict.keys d2 -> Dict.wf d1 -> Dict.wf d2.
Proof.
  revert d2; induction d1 as [|[k v] d1 IH]; intros [|[k2 w2] d2]; simpl;
    try discriminate; auto.
  intros Hkeys [Hk Hd1]. injection Hkeys as <- Hkeys. split; [| now apply IH].
  apply get_none_keys. unfold Dict.keys in *. rewrite <- Hkeys.
  now apply get_none_keys.
Qed.

Lemma wf_app_get {K V : Type} `{PyKeyLaws K} (d1 d2 : Dict.t K V) (k : K) (v : V) :
  Dict.wf (d1 ++ (k, v) :: d2)%list -> Dict.get d1 k = None.
Proof.
  induction d1 as [|[k0 v0] d1 IH]; simpl; [reflexivity |].
  intros [Hk0 Hwf].
  rewrite key_eqb_sym, (get_none_in _ _ k v Hk0) by (apply in_elt).
  now apply IH.
Qed.

(** ** The disk model obeys the file-system laws *)

Lemma disk_exists_set (d : disk) (p q : string) (n : node) :
  disk_exists d q = true -> disk_exists (Dict.set d p n) q = true.
Proof.
  unfold disk_exists. intros Hq.
  destruct (key_eqb p q) eqn:E.
  - now rewrite (get_set_equal d p n q E).
  - now rewrite (get_set_other d p n q E).
Qed.

#[export] Instance FileSystemLaws_disk : FileSystemLaws disk.
Proof.
  split; simpl.
  - intros d d' path. unfold disk_open_wb, disk_exists.
    destruct (Dict.get d path) as [[|c]|]; intros Heq; try discriminate;
      injection Heq as <-; now rewrite get_set_same.
  - intros d path q Hq. unfold disk_open_wb.
    destruct (Dict.get d path) as [[|c]|]; simpl; auto using disk_exists_set.
  - intros d path q chunk Hq. unfold disk_write.
    destruct (Dict.get d path) as [[|c]|]; simpl; auto using disk_exists_set.
Qed.

(** ** The download worker *)

Section Worker.

Context {FS : Type} `{FileSystem FS}.

Variable http_get : list request -> request -> result http_response.

(** C4.  When the destination path exists, whatever it holds, the worker
    prints the notice and returns: the requests sent and the file system are
    what they were. *)
Theorem existing_file_is_skipped
  (document_id : pykey) (download_url file_path progress_indicator : string)
  (w : world FS) :
  fs_exists (fs w) file_path = true ->
  download_benchmark_file http_get document_id download_url file_path
    progress_indicator w =
  (Build_world (fs w)
     (console w ++
        [Print (carriage_return ++ progress_indicator ++ " File already exists: "
                  ++ Str.basename file_path)])
     (sent w),
   Ok tt).
Proof.
  intros Hexists. unfold download_benchmark_file. rewrite Hexists.
  reflexivity.
Qed.

(** What the worker does when the path is free and the request is answered:
    the status check, the total, then the file. *)
Lemma download_fresh
  (document_id : pykey) (download_url file_path progress_indicator : string)
  (w : world FS) (response : http_response) :
  let req := {| req_url := download_url; req_headers := [];
                req_cookies := [("documentId", py_str_key document_id)] |} in
  fs_exists (fs w) file_path = false ->
  http_get (sent w) req = Ok response ->
  download_benchmark_file http_get document_id download_url file_path
    progress_indicator w =
  (run mlift (raise_for_status response);
   do total_size <- mlift (total_size_of response);
   run on_fs (fs_open_wb file_path);
   run emit (ProgressTask (Str.basename file_path ++ " Downloading...") total_size);
   run write_chunks file_path (content response);
   match content_error response with
   | Some e => mraise e
   | None => mret tt
   end)%monad (after_request w req).
Proof.
  intros req Hfree Hget. unfold download_benchmark_file. rewrite Hfree.
  unfold mbind at 1. unfold requests_get. fold req. rewrite Hget.
  reflexivity.
Qed.

(** A request that raises ends the download after it was sent. *)
Lemma download_request_fails
  (document_id : pykey) (download_url file_path progress_indicator : string)
  (w : world FS) (e : exn) :
  let req := {| req_url := download_url; req_headers := [];
                req_cookies := [("documentId", py_str_key document_id)] |} in
  fs_exists (fs w) file_path = false ->
  http_get (sent w) req = Raise e ->
  download_benchmark_file http_get document_id download_url file_path
    progress_indicator w = (after_request w req, Raise e).
Proof.
  intros req Hfree Hget. unfold download_benchmark_file. rewrite Hfree.
  unfold mbind at 1. unfold requests_get. fold req. rewrite Hget.
  reflexivity.
Qed.

(** [int] raises nothing but [ValueError]. *)
Lemma of_string_raises (s : string) (e : exn) :
  PyInt.of_string s = Raise e -> e = ValueError.
Proof.
  unfold PyInt.of_string.
  destruct (PyInt.signed _) as [negative body].
  destruct (PyInt.digits _ _ _ _) as [[v n]|]; [| congruence].
  destruct (n <=? _)%nat; congruence.
Qed.

(** C3, as the code has it.  For a download whose status check passes, the
    total of the progress task is 0 when there is no [content-length]
    header and the integer the header denotes when [int] accepts it; when
    [int] refuses the header, the worker raises [ValueError] before it
    opens the file. *)
Theorem total_size_from_content_length
  (document_id : pykey) (download_url file_path progress_indicator : string)
  (w : world FS) (response : http_response) :
  let req := {| req_url := download_url; req_headers := [];
                req_cookies := [("documentId", py_str_key document_id)] |} in
  let continue_with (total_size : Z) :=
    (run on_fs (fs_open_wb file_path);
     run emit (ProgressTask (Str.basename file_path ++ " Downloading...") total_size);
     run write_chunks file_path (content response);
     match content_error response with
     | Some e => mraise e
     | None => mret tt
     end)%monad (after_request w req) in
  fs_exists (fs w) file_path = false ->
  http_get (sent w) req = Ok response ->
  raise_for_status response = Ok tt ->
  download_benchmark_file http_get document_id download_url file_path
    progress_indicator w =
  match headers_get (headers response) "content-length" with
  | None => continue_with 0%Z
  | Some v =>
      match PyInt.of_string v with
      | Ok n => continue_with n
      | Raise _ => (after_request w req, Raise ValueError)
      end
  end.
Proof.
  intros req continue_with Hfree Hget Hstatus.
  rewrite (download_fresh document_id download_url file_path progress_indicator
             w response Hfree Hget). fold req.
  unfold mbind at 1, mlift at 1. rewrite Hstatus.
  unfold mbind at 1, mlift at 1, total_size_of.
  destruct (headers_get _ _) as [v|]; [| reflexivity].
  destruct (PyInt.of_string v) as [n|e] eqn:E; [reflexivity |].
  now rewrite (of_string_raises v e E).
Qed.

End Worker.

(** ** The orchestrator *)

Lemma labelled_from_cons (first total : nat) (r : resource) (rs : list resource) :
  labelled_from first total (r :: rs) =
  (r, progress_label first total) :: labelled_from (S first) total rs.
Proof.
  reflexivity.
Qed.

Lemma labelled_from_app (first total : nat) (a b : list resource) :
  labelled_from first total (a ++ b) =
  (labelled_from first total a
     ++ labelled_from (first + List.length a) total b)%list.
Proof.
  revert first; induction a as [|r a IH]; intros first.
  - simpl. now rewrite Nat.add_0_r.
  - rewrite <- app_comm_cons, !labelled_from_cons, IH.
    simpl. now rewrite Nat.add_succ_r.
Qed.



Lemma count_benchmarks_total (d : technologies) (ks : list string) (n : nat) :
  (forall k, In k ks -> Dict.get d k <> None) ->
  count_benchmarks d ks n = Ok (n + List.length (flat_map (resources_of d) ks)).
Proof.
  revert n; induction ks as [|k ks IH]; intros n Hks; simpl.
  - now rewrite Nat.add_0_r.
  - unfold resources_of at 1.
    destruct (Dict.get d k) as [tech|] eqn:E.
    + rewrite IH by (intros; apply Hks; now right).
      rewrite length_app. f_equal. lia.
    + exfalso. apply (Hks k); [now left | assumption].
Qed.

Section Orchestrator.

Context {FS : Type} `{FileSystem FS}.

Variable http_get : list request -> request -> result http_response.

Lemma download_in_sequence_app (a b : list (resource * string)) (w : world FS) :
  download_in_sequence http_get (a ++ b) w =
  (run download_in_sequence http_get a; download_in_sequence http_get b)%monad w.
Proof.
  revert w; induction a as [|c a IH]; intros w; simpl.
  - reflexivity.
  - unfold mbind.
    destruct (download_one http_get c w) as [w' [[]|e]]; [| reflexivity].
    rewrite IH. reflexivity.
Qed.

Lemma download_resources_sequence
  (rs : list resource) (total current : nat) (w : world FS) :
  download_resources http_get rs total current w =
  counting (download_in_sequence http_get (labelled_from current total rs))
    (current + List.length rs) w.
Proof.
  revert current w; induction rs as [|r rs IH]; intros current w.
  - unfold counting. simpl. unfold mret. now rewrite Nat.add_0_r.
  - rewrite labelled_from_cons. simpl.
    unfold counting, mbind. unfold download_one at 1. simpl.
    destruct (download_benchmark_file _ _ _ _ _ w) as [w' [[]|e]]; [| reflexivity].
    rewrite IH. unfold counting.
    rewrite Nat.add_1_r, Nat.add_succ_r. reflexivity.
Qed.

Lemma download_technologies_sequence
  (d : technologies) (ks : list string) (total current : nat) (w : world FS) :
  (forall k, In k ks -> Dict.get d k <> None) ->
  download_technologies http_get d ks total current w =
  counting
    (download_in_sequence http_get
       (labelled_from current total (flat_map (resources_of d) ks)))
    (current + List.length (flat_map (resources_of d) ks)) w.
Proof.
  revert current w; induction ks as [|k ks IH]; intros current w Hks.
  - unfold counting. simpl. unfold mret. now rewrite Nat.add_0_r.
  - simpl. destruct (Dict.get d k) as [tech|] eqn:E.
    2:{ exfalso. apply (Hks k); [now left | assumption]. }
    assert (Hr : resources_of d k = resource_list tech)
      by (unfold resources_of; now rewrite E).
    rewrite Hr. unfold mbind at 1. unfold dict_lookup. rewrite E.
    unfold mret at 1. unfold mbind.
    rewrite download_resources_sequence, labelled_from_app, length_app.
    unfold counting. rewrite download_in_sequence_app. unfold mbind.
    destruct (download_in_sequence http_get _ w) as [w' [[]|e]]; [| reflexivity].
    rewrite IH by (intros; apply Hks; now right).
    unfold counting. rewrite Nat.add_assoc. reflexivity.
Qed.

(** The two nested loops of [main] run the planned downloads in sequence. *)
Lemma main_downloads_sequence (d : technologies) (w : world FS) :
  main_downloads http_get d w =
  download_in_sequence http_get (planned_downloads d) w.
Proof.
  unfold main_downloads, planned_downloads, resources_in_order.
  assert (Hks : forall k, In k (Dict.keys d) -> Dict.get d k <> None)
    by (intros k; apply get_keys).
  unfold mbind at 1, mlift at 1.
  rewrite (count_benchmarks_total d (Dict.keys d) 0 Hks). simpl Nat.add.
  unfold mbind. rewrite (download_technologies_sequence d _ _ _ w Hks).
  unfold counting.
  destruct (download_in_sequence http_get _ w) as [w' [[]|e]]; reflexivity.
Qed.


End Orchestrator.

(** ** What stays on disk *)

Section Persistence.

Context {FS : Type} `{FileSystemLaws FS}.

Variable http_get : list request -> request -> result http_response.

Lemma keeps_bind {A B : Type} (m : M (world FS) A) (k : A -> M (world FS) B) :
  keeps_paths m -> (forall a, keeps_paths (k a)) -> keeps_paths (mbind m k).
Proof.
  intros Hm Hk w q Hq. unfold mbind.
  specialize (Hm w q Hq).
  destruct (m w) as [w' [a|e]]; simpl in *; [now apply Hk | assumption].
Qed.

Lemma keeps_pure {A : Type} (r : result A) : keeps_paths (mlift r).
Proof.
  intros w q Hq. exact Hq.
Qed.

Lemma keeps_emit (o : output) : keeps_paths (emit o).
Proof.
  intros w q Hq. exact Hq.
Qed.

Lemma keeps_requests_get (req : request) : keeps_paths (requests_get http_get req).
Proof.
  intros w q Hq. exact Hq.
Qed.

Lemma keeps_open_wb (path : string) : keeps_paths (on_fs (fs_open_wb path)).
Proof.
  intros w q Hq. unfold on_fs.
  pose proof (open_wb_keeps (fs w) path q Hq) as Hkeep.
  destruct (fs_open_wb path (fs w)) as [d' r]. exact Hkeep.
Qed.

Lemma keeps_write (path : string) (chunk : list Byte.byte) :
  keeps_paths (on_fs (fs_write path chunk)).
Proof.
  intros w q Hq. unfold on_fs.
  pose proof (write_keeps (fs w) path q chunk Hq) as Hkeep.
  destruct (fs_write path chunk (fs w)) as [d' r]. exact Hkeep.
Qed.

Lemma keeps_write_chunks (path : string) (chunks : list (list Byte.byte)) :
  keeps_paths (write_chunks path chunks).
Proof.
  induction chunks as [|chunk rest IH]; simpl.
  - apply (keeps_pure (Ok tt)).
  - destruct chunk as [|b chunk]; [assumption |].
    apply keeps_bind; [apply keeps_write | intros _].
    apply keeps_bind; [apply keeps_emit | intros _; assumption].
Qed.

Lemma keeps_download
  (document_id : pykey) (download_url file_path progress_indicator : string) :
  keeps_paths
    (download_benchmark_file http_get document_id download_url file_path
       progress_indicator).
Proof.
  intros w q Hq. unfold download_benchmark_file.
  destruct (fs_exists (fs w) file_path); [exact Hq |].
  revert w q Hq.
  apply keeps_bind; [apply keeps_requests_get | intros response].
  apply keeps_bind; [apply keeps_pure | intros _].
  apply keeps_bind; [apply keeps_pure | intros total_size].
  apply keeps_bind; [apply keeps_open_wb | intros _].
  apply keeps_bind; [apply keeps_emit | intros _].
  apply keeps_bind; [apply keeps_write_chunks | intros _].
  destruct (content_error response); intros w q Hq; exact Hq.
Qed.

Lemma keeps_download_in_sequence (calls : list (resource * string)) :
  keeps_paths (download_in_sequence http_get calls).
Proof.
  induction calls as [|c calls IH]; simpl.
  - apply (keeps_pure (Ok tt)).
  - apply keeps_bind; [apply keeps_download | intros _; assumption].
Qed.

(** A download that returns leaves a file at its path. *)
Lemma download_leaves_file
  (document_id : pykey) (download_url file_path progress_indicator : string)
  (w w' : world FS) :
  download_benchmark_file http_get document_id download_url file_path
    progress_indicator w = (w', Ok tt) ->
  fs_exists (fs w') file_path = true.
Proof.
  unfold download_benchmark_file.
  destruct (fs_exists (fs w) file_path) eqn:Hexists.
  - intros Heq. injection Heq as <-. exact Hexists.
  - unfold mbind at 1.
    destruct (requests_get http_get _ w) as [w1 [response|e]]; [| discriminate].
    unfold mbind at 1, mlift at 1.
    destruct (raise_for_status response) as [[]|e]; [| discriminate].
    unfold mbind at 1, mlift at 1.
    destruct (total_size_of response) as [total_size|e]; [| discriminate].
    unfold mbind at 1, on_fs at 1.
    destruct (fs_open_wb file_path (fs w1)) as [d1 [[]|e]] eqn:Hopen; [| discriminate].
    apply open_wb_creates in Hopen.
    set (w2 := Build_world d1 (console w1) (sent w1)).
    assert (H2 : fs_exists (fs w2) file_path = true) by exact Hopen.
    clearbody w2. unfold mbind at 1.
    pose proof (keeps_emit (ProgressTask
                  (Str.basename file_path ++ " Downloading...") total_size)
                  w2 file_path H2) as H3.
    destruct (emit _ w2) as [w3 [[]|e]]; [| discriminate]. simpl in H3.
    unfold mbind.
    pose proof (keeps_write_chunks file_path (content response) w3 file_path H3)
      as H4.
    destruct (write_chunks file_path (content response) w3) as [w4 [[]|e]];
      [| discriminate]. simpl in H4.
    destruct (content_error response); [discriminate |].
    intros Heq. injection Heq as <-. exact H4.
Qed.

(** After a sequence of downloads that all return, each of them has a file
    at its path. *)
Lemma sequence_leaves_files (calls : list (resource * string)) (w w' : world FS) :
  download_in_sequence http_get calls w = (w', Ok tt) ->
  Forall (fun c => fs_exists (fs w') (resource_filename (fst c)) = true) calls.
Proof.
  revert w; induction calls as [|c calls IH]; intros w; simpl.
  - constructor.
  - unfold mbind.
    destruct (download_one http_get c w) as [w1 [[]|e]] eqn:Hone; [| discriminate].
    intros Hrest. constructor; [| now apply IH with w1].
    apply download_leaves_file in Hone.
    pose proof (keeps_download_in_sequence calls w1 _ Hone) as Hkeep.
    now rewrite Hrest in Hkeep.
Qed.

(** A client or server error status ends the download before the file is
    opened. *)
Lemma download_http_error (call : resource * string) (w : world FS)
  (response : http_response) :
  fs_exists (fs w) (resource_filename (fst call)) = false ->
  http_get (sent w) (download_request (fst call)) = Ok response ->
  (400 <= status_code response < 600)%Z ->
  download_one http_get call w =
  (after_request w (download_request (fst call)), Raise HTTPError).
Proof.
  intros Hfree Hget Hstatus. unfold download_one.
  rewrite (download_fresh http_get _ _ _ _ w response Hfree Hget).
  unfold mbind at 1, mlift at 1, raise_for_status.
  assert ((400 <=? status_code response) && (status_code response <? 600) = true)%Z
    as -> by (apply andb_true_iff; split; [apply Z.leb_le | apply Z.ltb_lt]; lia).
  reflexivity.
Qed.

(** C5, as the code has it.  When the response to a download has a status
    from 400 to 599, the worker raises [HTTPError] and the loop of [main]
    ends there: the request of that download is the last one sent, no file
    is opened for it, and every download that returned before it has its
    file on disk. *)
Theorem http_error_aborts_the_run
  (d : technologies) (w w1 : world FS)
  (before after : list (resource * string)) (call : resource * string)
  (response : http_response) :
  planned_downloads d = (before ++ call :: after)%list ->
  download_in_sequence http_get before w = (w1, Ok tt) ->
  fs_exists (fs w1) (resource_filename (fst call)) = false ->
  http_get (sent w1) (download_request (fst call)) = Ok response ->
  (400 <= status_code response < 600)%Z ->
  download_one http_get call w1 =
    (after_request w1 (download_request (fst call)), Raise HTTPError)
  /\ main_downloads http_get d w =
       (after_request w1 (download_request (fst call)), Raise HTTPError)
  /\ Forall
       (fun c =>
          fs_exists (fs (after_request w1 (download_request (fst call))))
            (resource_filename (fst c)) = true)
       before.
Proof.
  intros Hplan Hbefore Hfree Hget Hstatus.
  pose proof (download_http_error call w1 response Hfree Hget Hstatus) as Hone.
  split; [exact Hone | split].
  - rewrite main_downloads_sequence, Hplan, download_in_sequence_app.
    unfold mbind at 1. rewrite Hbefore. simpl. unfold mbind. now rewrite Hone.
  - exact (sequence_leaves_files before w w1 Hbefore).
Qed.

End Persistence.

(** ** The document mapping *)

Lemma extract_documents_app (a b : list json) (info : document_info) :
  extract_documents (a ++ b) info =
  (try info' <- extract_documents a info; extract_documents b info')%result.
Proof.
  revert info; induction a as [|d a IH]; intros info; simpl; [reflexivity |].
  destruct (read_document d) as [kv|e]; simpl; [apply IH | reflexivity].
Qed.

Lemma extract_documents_wf (documents : list json) (info info' : document_info) :
  Dict.wf info -> extract_documents documents info = Ok info' -> Dict.wf info'.
Proof.
  revert info; induction documents as [|d documents IH]; intros info Hwf; simpl.
  - now intros [= <-].
  - destruct (read_document d) as [kv|e]; simpl; [| discriminate].
    apply IH. now apply wf_set.
Qed.

Lemma extract_categories_documents (categories : list json) (info info' : document_info) :
  extract_categories categories info = Ok info' ->
  exists documents,
    documents_of_categories categories = Ok documents
    /\ extract_documents documents info = Ok info'.
Proof.
  revert info; induction categories as [|c categories IH]; intros info; simpl.
  - intros [= <-]. exists []. split; reflexivity.
  - destruct (py_getitem c "documents") as [dv|e]; simpl; [| discriminate].
    destruct (py_iter dv) as [ds|e]; simpl; [| discriminate].
    destruct (extract_documents ds info) as [info1|e] eqn:E1; simpl; [| discriminate].
    intros Hrest. destruct (IH _ Hrest) as (more & -> & Hmore). simpl.
    exists (ds ++ more)%list. split; [reflexivity |].
    rewrite extract_documents_app, E1. exact Hmore.
Qed.

Lemma extract_document_info_documents (json_data : json) (info : document_info) :
  extract_document_info json_data = Ok info ->
  exists documents,
    all_documents json_data = Ok documents
    /\ extract_documents documents [] = Ok info.
Proof.
  unfold extract_document_info, all_documents, json_roundtrip.
  destruct (py_iter json_data) as [categories|e]; simpl; [| discriminate].
  apply extract_categories_documents.
Qed.

Lemma extract_document_info_wf (json_data : json) (info : document_info) :
  extract_document_info json_data = Ok info -> Dict.wf info.
Proof.
  intros Hinfo.
  destruct (extract_document_info_documents json_data info Hinfo)
    as (documents & _ & Hdocs).
  apply (extract_documents_wf documents [] info); [exact I | exact Hdocs].
Qed.

(** Documents with other ids leave the entry of [k] as it is. *)
Lemma extract_documents_other (documents : list json) (info info' : document_info)
  (k : pykey) :
  (forall d k' e', In d documents -> read_document d = Ok (k', e') ->
                   key_eqb k' k = false) ->
  extract_documents documents info = Ok info' ->
  Dict.get info' k = Dict.get info k.
Proof.
  revert info; induction documents as [|d documents IH]; intros info Hother; simpl.
  - now intros [= <-].
  - destruct (read_document d) as [[k' e']|e] eqn:E; simpl; [| discriminate].
    intros Hrest. rewrite (IH _ (fun d0 k0 e0 Hin => Hother d0 k0 e0 (or_intror Hin)) Hrest).
    apply get_set_other. apply (Hother d k' e'); [now left | assumption].
Qed.

Lemma extract_documents_last (before after : list json) (d : json)
  (info0 info : document_info) (k : pykey) (e : document_entry) :
  extract_documents (before ++ d :: after) info0 = Ok info ->
  read_document d = Ok (k, e) ->
  (forall d' k' e', In d' after -> read_document d' = Ok (k', e') ->
                    key_eqb k' k = false) ->
  Dict.get info k = Some e.
Proof.
  intros Hinfo Hd Hafter. rewrite extract_documents_app in Hinfo.
  destruct (extract_documents before info0) as [info1|e1]; simpl in Hinfo;
    [| discriminate].
  rewrite Hd in Hinfo. simpl in Hinfo.
  rewrite (extract_documents_other after _ info k Hafter Hinfo).
  apply get_set_same.
Qed.

(** In a well-formed dictionary a key that is present occurs once. *)
Lemma wf_key_once {K V : Type} `{PyKeyLaws K} (d : Dict.t K V) (k : K) (v : V) :
  Dict.wf d -> Dict.get d k = Some v ->
  List.length (filter (key_eqb k) (Dict.keys d)) = 1.
Proof.
  induction d as [|[k0 v0] d IH]; simpl; [discriminate |].
  intros [Hk0 Hwf]. destruct (key_eqb k k0) eqn:E.
  - intros _. simpl. f_equal.
    assert (Hnone : Dict.get d k = None).
    { apply get_none_keys. apply get_none_keys in Hk0.
      rewrite <- Hk0. clear -E H0. induction (Dict.keys d) as [|k1 ks IHks];
        simpl; [reflexivity |].
      rewrite IHks. f_equal.
      destruct (key_eqb k0 k1) eqn:E01.
      - now apply key_eqb_trans with k0.
      - destruct (key_eqb k k1) eqn:E1; [| reflexivity].
        rewrite <- E01. symmetry. apply key_eqb_trans with k; [| assumption].
        now rewrite key_eqb_sym. }
    apply get_none_keys in Hnone. clear -Hnone.
    induction (Dict.keys d) as [|k1 ks IHks]; simpl in *; [reflexivity |].
    apply orb_false_iff in Hnone as [-> Hks]. now apply IHks.
  - intros Hget. now apply IH.
Qed.

(** ** The records of a response *)

Lemma records_of_ids (path : string) (items : document_info) (rs : list resource) :
  records_of path items = (rs, Ok tt) -> map resource_id rs = Dict.keys items.
Proof.
  revert rs; induction items as [|item items IH]; intros rs; simpl.
  - now intros [= <-].
  - destruct (record_of path item) as [r|e] eqn:E; [| discriminate].
    destruct (records_of path items) as [rs' res]. intros [= <- ->].
    simpl. rewrite (IH rs' eq_refl). f_equal.
    unfold record_of in E.
    destruct (py_concat _ _); simpl in E; [| discriminate].
    destruct (py_path_join _ _); simpl in E; [| discriminate].
    now injection E as <-.
Qed.


(** ** The observer *)

Lemma add_records_nil (tech : technology) : add_records [] tech = tech.
Proof.
  destruct tech as [path rs]. unfold add_records. simpl. now rewrite app_nil_r.
Qed.

Lemma add_records_cons (r : resource) (rs : list resource) (tech : technology) :
  add_records rs (append_resource r tech) = add_records (r :: rs) tech.
Proof.
  unfold add_records, append_resource. simpl. now rewrite <- app_assoc.
Qed.


(** The inner loop appends the records of the items, up to the first item
    that raises. *)
Lemma add_resources_records (info : document_info) (tech_id : string)
  (items : list (pykey * document_entry)) (d : technologies) (tech : technology) :
  (forall kv, In kv items -> Dict.get info (fst kv) = Some (snd kv)) ->
  Dict.get d tech_id = Some tech ->
  add_resources info tech_id (map fst items) d =
  (Dict.update d tech_id (add_records (fst (records_of (tech_path tech) items))),
   snd (records_of (tech_path tech) items)).
Proof.
  revert d tech; induction items as [|item items IH]; intros d tech Hitems Htech.
  - simpl. unfold mret. now rewrite (update_id d tech_id _ add_records_nil).
  - simpl. unfold mbind at 1. unfold add_resource.
    unfold mbind at 1. unfold dict_lookup at 1.
    rewrite (Hitems item (or_introl eq_refl)). unfold mret at 1.
    unfold record_of.
    unfold mbind at 1, mlift at 1.
    destruct (py_concat base_url (pardot_id (snd item))) as [pdf_url|e]; simpl.
    2:{ now rewrite (update_id d tech_id _ add_records_nil). }
    unfold mbind at 1, mget at 1. unfold mbind at 1, dict_lookup.
    rewrite Htech. unfold mret at 1.
    unfold mbind at 1, mlift at 1.
    destruct (py_path_join (tech_path tech) (filename (snd item))) as [file_name|e];
      simpl.
    2:{ now rewrite (update_id d tech_id _ add_records_nil). }
    unfold mmodify.
    set (r := {| resource_id := fst item; resource_filename := file_name;
                 resource_pdf_url := pdf_url |}).
    rewrite (IH (Dict.update d tech_id (append_resource r)) (append_resource r tech)).
    + simpl. destruct (records_of (tech_path tech) items) as [rs res]. simpl.
      rewrite update_update. f_equal.
      apply update_ext. intros v. apply add_records_cons.
    + intros kv Hin. apply Hitems. now right.
    + rewrite get_update_same, Htech. reflexivity.
Qed.

Lemma process_technology_discovered (response : browser_response) (tech_id : string)
  (d : technologies) (tech : technology) :
  Dict.get d tech_id = Some tech ->
  process_technology response tech_id d =
  (Dict.update d tech_id
     (add_records (fst (discovered response tech_id (tech_path tech)))),
   snd (discovered response tech_id (tech_path tech))).
Proof.
  intros Htech. unfold process_technology, discovered.
  destruct (Str.endswith _ _).
  2:{ simpl. unfold mret. now rewrite (update_id d tech_id _ add_records_nil). }
  unfold mbind at 1, mlift at 1.
  destruct (response_json response) as [json_data|e]; simpl.
  2:{ now rewrite (update_id d tech_id _ add_records_nil). }
  unfold mbind at 1, mlift at 1.
  destruct (extract_document_info json_data) as [info|e] eqn:Einfo; simpl.
  2:{ now rewrite (update_id d tech_id _ add_records_nil). }
  apply add_resources_records; [| exact Htech].
  intros [k v] Hin. simpl.
  apply get_in; [| exact Hin].
  exact (extract_document_info_wf json_data info Einfo).
Qed.

Lemma discover_all_keys (response : browser_response) (d : technologies) :
  Dict.keys (fst (discover_all response d)) = Dict.keys d.
Proof.
  unfold Dict.keys.
  induction d as [|[k tech] d IH]; simpl; [reflexivity |].
  destruct (discovered response k (tech_path tech)) as [rs [[]|e]].
  - destruct (discover_all response d) as [d' res]. simpl in *. now rewrite IH.
  - reflexivity.
Qed.

(** On the items of a well-formed mapping the loop over the keys does what
    [discover_all] says. *)
Lemma process_technologies_discover (response : browser_response)
  (done todo : technologies) :
  Dict.wf (done ++ todo)%list ->
  process_technologies response (Dict.keys todo) (done ++ todo)%list =
  ((done ++ fst (discover_all response todo))%list, snd (discover_all response todo)).
Proof.
  revert done; induction todo as [|[k tech] todo IH]; intros done Hwf.
  - reflexivity.
  - simpl. unfold mbind.
    assert (Hdone : Dict.get done k = None) by exact (wf_app_get done todo k tech Hwf).
    assert (Hget : Dict.get (done ++ (k, tech) :: todo)%list k = Some tech).
    { rewrite get_app_none by exact Hdone. simpl. now rewrite String.eqb_refl. }
    rewrite (process_technology_discovered response k _ tech Hget).
    rewrite update_app_none by exact Hdone. simpl. rewrite String.eqb_refl.
    destruct (discovered response k (tech_path tech)) as [rs [[]|e]]; simpl.
    + set (tech' := add_records rs tech).
      replace (done ++ (k, tech') :: todo)%list
        with ((done ++ [(k, tech')]) ++ todo)%list
        by (now rewrite <- app_assoc).
      rewrite IH.
      * destruct (discover_all response todo) as [todo' res]. simpl.
        now rewrite <- app_assoc.
      * apply (wf_same_keys (done ++ (k, tech) :: todo)%list); [| exact Hwf].
        unfold Dict.keys. rewrite <- app_assoc. rewrite !map_app. reflexivity.
    + reflexivity.
Qed.

Lemma process_discover_all (response : browser_response) (d : technologies) :
  Dict.wf d ->
  process_benchmark_response response d = discover_all response d.
Proof.
  intros Hwf. unfold process_benchmark_response.
  pose proof (process_technologies_discover response [] d Hwf) as Hloop.
  simpl in Hloop. rewrite Hloop.
  now destruct (discover_all response d).
Qed.

(** The mapping [main] builds has distinct keys, and a pass of the observer
    keeps them. *)
Lemma init_technologies_wf (items : list (string * string)) (d : technologies) :
  Dict.wf d -> Dict.wf (init_technologies items d).
Proof.
  revert d; induction items as [|[tech_id path] items IH]; intros d Hwf; simpl.
  - exact Hwf.
  - apply IH. now apply wf_set.
Qed.

Lemma process_keeps_wf (response : browser_response) (d : technologies) :
  Dict.wf d -> Dict.wf (fst (process_benchmark_response response d)).
Proof.
  intros Hwf. rewrite (process_discover_all response d Hwf).
  apply (wf_same_keys d); [| exact Hwf]. symmetry. apply discover_all_keys.
Qed.



Lemma join_relative (path f : string) :
  Str.startswith f Str.sep = false ->
  Str.join path f = with_sep path ++ f
  /\ Str.startswith (Str.join path f) (with_sep path) = true.
Proof.
  intros Hrel. unfold Str.join, with_sep. rewrite Hrel.
  destruct (String.eqb path "" || Str.endswith path Str.sep).
  - split; [reflexivity | apply startswith_app].
  - rewrite <- append_assoc. split; [reflexivity | apply startswith_app].
Qed.

(** One pass of the inner loop appends one record, whose file path is the
    join of the technology's directory and the file name of the entry. *)
Lemma add_resource_appends
  (info : document_info) (tech_id : string) (resource_id : pykey)
  (d d' : technologies) (tech : technology) :
  Dict.get d tech_id = Some tech ->
  add_resource info tech_id resource_id d = (d', Ok tt) ->
  exists entry f r,
    Dict.get info resource_id = Some entry
    /\ filename entry = JStr f
    /\ Dict.get d' tech_id = Some (append_resource r tech)
    /\ resource_filename r = Str.join (tech_path tech) f
    /\ (Str.startswith f Str.sep = false ->
        resource_filename r = with_sep (tech_path tech) ++ f
        /\ Str.startswith (resource_filename r) (with_sep (tech_path tech)) = true).
Proof.
  intros Htech. unfold add_resource.
  unfold mbind at 1, dict_lookup at 1.
  destruct (Dict.get info resource_id) as [entry|] eqn:Eentry; [| discriminate].
  unfold mret at 1. unfold mbind at 1, mlift at 1.
  destruct (py_concat base_url (pardot_id entry)) as [pdf_url|e]; [| discriminate].
  unfold mbind at 1, mget at 1. unfold mbind at 1, dict_lookup.
  rewrite Htech. unfold mret at 1. unfold mbind at 1, mlift at 1, py_path_join.
  destruct (filename entry) as [| | |f| |] eqn:Efile; try discriminate.
  unfold mmodify. intros [= <-].
  exists entry, f,
    {| resource_id := resource_id;
       resource_filename := Str.join (tech_path tech) f;
       resource_pdf_url := pdf_url |}.
  split; [reflexivity |]. split; [exact Efile |].
  split; [now rewrite get_update_same, Htech |].
  split; [reflexivity |].
  intros Hrel. simpl. now apply join_relative.
Qed.


Lemma records_of_built (path : string) (items : document_info) :
  Forall
    (fun r =>
       exists entry f,
         In (resource_id r, entry) items
         /\ filename entry = JStr f
         /\ resource_filename r = Str.join path f)
    (fst (records_of path items)).
Proof.
  induction items as [|[k entry] items IH]; simpl; [constructor |].
  destruct (record_of path (k, entry)) as [r|e] eqn:E; [| constructor].
  destruct (records_of path items) as [rs res]. simpl in *.
  constructor.
  - unfold record_of, py_concat, py_path_join in E. simpl in E.
    destruct (pardot_id entry) as [| | |p| |]; simpl in E; try discriminate.
    destruct (filename entry) as [| | |f| |] eqn:Ef; simpl in E; try discriminate.
    injection E as <-. exists entry, f. simpl. auto.
  - apply Forall_impl with (2 := IH).
    intros r' (entry' & f & Hin & Hf & Hr). exists entry', f. auto.
Qed.

(** Whatever one response adds to a technology was built from a document of
    that response. *)
Lemma discovered_built (response : browser_response) (tech_id path : string) :
  Forall
    (fun r =>
       exists json_data info entry f,
         response_json response = Ok json_data
         /\ extract_document_info json_data = Ok info
         /\ In (resource_id r, entry) info
         /\ filename entry = JStr f
         /\ resource_filename r = Str.join path f)
    (fst (discovered response tech_id path)).
Proof.
  unfold discovered. destruct (Str.endswith _ _); [| constructor].
  destruct (response_json response) as [json_data|e]; [| constructor].
  destruct (extract_document_info json_data) as [info|e] eqn:Einfo; [| constructor].
  apply Forall_impl with (2 := records_of_built path info).
  intros r (entry & f & Hin & Hf & Hr). exists json_data, info, entry, f. auto.
Qed.

(** One pass, however it ends, appends to a technology nothing or what
    [discovered] gives for it. *)
Lemma discover_all_appended (response : browser_response) (d : technologies)
  (k : string) (tech : technology) :
  Dict.get d k = Some tech ->
  exists rs,
    Dict.get (fst (discover_all response d)) k = Some (add_records rs tech)
    /\ (rs = [] \/ rs = fst (discovered response k (tech_path tech))).
Proof.
  induction d as [|[k0 tech0] d IH]; simpl; [discriminate |].
  destruct (discovered response k0 (tech_path tech0)) as [rs0 [[]|e]] eqn:E0.
  - destruct (discover_all response d) as [d1 res1]. simpl in *.
    destruct (String.eqb k k0) eqn:Ek.
    + apply String.eqb_eq in Ek; subst k0. intros [= <-].
      exists rs0. rewrite E0. auto.
    + exact IH.
  - simpl. destruct (String.eqb k k0) eqn:Ek.
    + apply String.eqb_eq in Ek; subst k0. intros [= <-].
      exists rs0. rewrite E0. auto.
    + intros Hget. exists []. rewrite add_records_nil. auto.
Qed.

(** C1, as the code has it.  Every record a pass of the observer appends to
    a technology has as file path what [os.path.join] gives for the
    technology's directory and the file name of a document of the response.
    When that file name does not start with a separator the path is, as a
    text, the directory, a separator unless the directory is empty or ends
    with one, and the file name: the directory is a prefix of the path.
    Nothing normalises the path, so this says nothing of where a file name
    with [..] segments leads. *)
Theorem relative_filename_is_appended_to_directory
  (response : browser_response) (d : technologies) (k : string) (tech : technology) :
  Dict.wf d ->
  Dict.get d k = Some tech ->
  exists rs,
    Dict.get (fst (process_benchmark_response response d)) k
    = Some (add_records rs tech)
    /\ Forall
         (fun r =>
            exists json_data info entry f,
              response_json response = Ok json_data
              /\ extract_document_info json_data = Ok info
              /\ In (resource_id r, entry) info
              /\ filename entry = JStr f
              /\ resource_filename r = Str.join (tech_path tech) f
              /\ (Str.startswith f Str.sep = false ->
                  resource_filename r = with_sep (tech_path tech) ++ f
                  /\ Str.startswith (resource_filename r)
                       (with_sep (tech_path tech)) = true))
         rs.
Proof.
  intros Hwf Hk. rewrite (process_discover_all response d Hwf).
  destruct (discover_all_appended response d k tech Hk) as (rs & Hget & Hrs).
  exists rs. split; [exact Hget |].
  destruct Hrs as [-> | ->]; [constructor |].
  apply Forall_impl with (2 := discovered_built response k (tech_path tech)).
  intros r (json_data & info & entry & f & Hjson & Hinfo & Hin & Hf & Hr).
  exists json_data, info, entry, f. repeat split; try assumption.
  - rewrite Hr. now apply join_relative.
  - rewrite Hr. now apply join_relative.
Qed.



Lemma filter_map_length {A B : Type} (p : B -> bool) (f : A -> B) (l : list A) :
  List.length (filter (fun a => p (f a)) l) = List.length (filter p (map f l)).
Proof.
  induction l as [|a l IH]; simpl; [reflexivity |].
  destruct (p (f a)); simpl; now rewrite IH.
Qed.

(** C10.  The mapping [extract_document_info] returns has one entry per
    document id.  The entry of an id holds the pardot id and the file name of
    the last document of the response with that id, so that a document
    followed by another with the same id gives no record of its own: the
    records built from the mapping hold exactly one with that id. *)
Theorem last_document_of_an_id_wins (json_data : json) (info : document_info) :
  extract_document_info json_data = Ok info ->
  exists documents,
    all_documents json_data = Ok documents
    /\ Dict.wf info
    /\ forall before d after k e,
         documents = (before ++ d :: after)%list ->
         read_document d = Ok (k, e) ->
         (forall d' k' e', In d' after -> read_document d' = Ok (k', e') ->
                           key_eqb k' k = false) ->
         Dict.get info k = Some e
         /\ List.length (filter (key_eqb k) (Dict.keys info)) = 1
         /\ forall path rs,
              records_of path info = (rs, Ok tt) ->
              List.length (filter (fun r => key_eqb k (resource_id r)) rs) = 1.
Proof.
  intros Hinfo.
  destruct (extract_document_info_documents json_data info Hinfo)
    as (documents & Hall & Hdocs).
  pose proof (extract_document_info_wf json_data info Hinfo) as Hwf.
  exists documents. split; [exact Hall |]. split; [exact Hwf |].
  intros before d after k e Hsplit Hread Hafter. subst documents.
  pose proof (extract_documents_last before after d [] info k e Hdocs Hread Hafter)
    as Hget.
  split; [| split].
  - exact Hget.
  - exact (wf_key_once info k e Hwf Hget).
  - intros path rs Hrs.
    rewrite <- (wf_key_once info k e Hwf Hget).
    rewrite <- (records_of_ids path info rs Hrs).
    apply filter_map_length.
Qed.

(** ** From the record to the request *)

Section Requests.

Context {FS : Type} `{FileSystem FS}.

Variable http_get : list request -> request -> result http_response.

Lemma sends_nothing_bind {A B : Type} (m : M (world FS) A) (k : A -> M (world FS) B) :
  sends_nothing m -> (forall a, sends_nothing (k a)) -> sends_nothing (mbind m k).
Proof.
  intros Hm Hk w. unfold mbind. specialize (Hm w).
  destruct (m w) as [w' [a|e]]; simpl in *; [| exact Hm].
  now rewrite Hk.
Qed.

Lemma sends_nothing_on_fs {A : Type} (m : M FS A) : sends_nothing (on_fs m).
Proof.
  intros w. unfold on_fs. now destruct (m (fs w)).
Qed.

Lemma sends_nothing_write_chunks (path : string) (chunks : list (list Byte.byte)) :
  sends_nothing (write_chunks path chunks).
Proof.
  induction chunks as [|chunk rest IH]; simpl.
  - intros w. reflexivity.
  - destruct chunk as [|b chunk]; [assumption |].
    apply sends_nothing_bind; [apply sends_nothing_on_fs | intros _].
    apply sends_nothing_bind; [intros w; reflexivity | intros _; assumption].
Qed.

(** A download to a free path sends its one request and no other. *)
Lemma download_sends_one_request (call : resource * string) (w : world FS) :
  fs_exists (fs w) (resource_filename (fst call)) = false ->
  sent (fst (download_one http_get call w))
  = (sent w ++ [download_request (fst call)])%list.
Proof.
  intros Hfree. unfold download_one, download_benchmark_file. rewrite Hfree.
  unfold mbind at 1, requests_get. fold (download_request (fst call)).
  destruct (http_get (sent w) (download_request (fst call))) as [response|e];
    [| reflexivity].
  set (w1 := Build_world (fs w) (console w) (sent w ++ [download_request (fst call)])).
  change (sent w ++ [download_request (fst call)])%list with (sent w1).
  generalize w1.
  apply sends_nothing_bind; [intros w2; reflexivity | intros _].
  apply sends_nothing_bind; [intros w2; reflexivity | intros total_size].
  apply sends_nothing_bind; [apply sends_nothing_on_fs | intros _].
  apply sends_nothing_bind; [intros w2; reflexivity | intros _].
  apply sends_nothing_bind; [apply sends_nothing_write_chunks | intros _].
  destruct (content_error response); intros w2; reflexivity.
Qed.


End Requests.

(** ** The catalog fetcher *)

(** A body that is not JSON ends the fetch after the request, before any
    directory is made. *)
Lemma malformed_catalog_raises {FS : Type} `{FileSystem FS}
  (http_get : list request -> request -> result http_response)
  (py_repr : json -> string) (w : world FS) (response : http_response) (e : exn) :
  http_get (sent w) catalog_request = Ok response ->
  json_body response = Raise e ->
  fetch_technology_categories http_get py_repr w
  = (after_request w catalog_request, Raise e).
Proof.
  intros Hget Hbody. unfold fetch_technology_categories.
  unfold mbind at 1, requests_get. rewrite Hget.
  unfold mbind at 1, mlift at 1. rewrite Hbody. reflexivity.
Qed.

(** C2.  The fetcher does not look at the status: when the catalog endpoint
    answers 500 with a well-formed catalog as its body, the fetcher raises
    nothing, makes the directory and returns the mapping built from that
    response. *)
Theorem catalog_status_is_not_checked (py_repr : json -> string) :
  fetch_technology_categories
    (Scenario.catalog_server 500 (Ok Scenario.catalog_json)) py_repr
    Scenario.empty_world
  = (Build_world [("Operating Systems/Linux", Dir)] [] [catalog_request],
     Ok [("7", "Operating Systems/Linux")]).
Proof.
  reflexivity.
Qed.

(** ** The statements at concrete inputs *)

Lemma existing_file_is_skipped_witness :
  let w : world disk :=
    Build_world [("Operating Systems/Linux/bench.pdf", File [])] [] [] in
  fs_exists (fs w) "Operating Systems/Linux/bench.pdf" = true
  /\ download_benchmark_file (Scenario.server 200 []) (KStr "d1")
       "https://learn.cisecurity.org/x1" "Operating Systems/Linux/bench.pdf" "1/1" w
     = (Build_world (fs w)
          [Print (carriage_return ++ "1/1 File already exists: bench.pdf")] [],
        Ok tt).
Proof.
  intros w. split; [reflexivity |].
  exact (existing_file_is_skipped (Scenario.server 200 []) (KStr "d1")
           "https://learn.cisecurity.org/x1" "Operating Systems/Linux/bench.pdf"
           "1/1" w eq_refl).
Defined.

Lemma total_size_from_content_length_witness :
  download_benchmark_file (Scenario.server 200 [("Content-Length", "12")])
    (KStr "d1") "https://learn.cisecurity.org/x1"
    "Operating Systems/Linux/bench.pdf" "1/1" Scenario.ready_world
  = (Build_world
       (fs Scenario.ready_world
          ++ [("Operating Systems/Linux/bench.pdf",
               File [Byte.x25; Byte.x50; Byte.x44; Byte.x46; Byte.x0a])])%list
       [ProgressTask "bench.pdf Downloading..." 12;
        ProgressAdvance 4; ProgressAdvance 1]
       [{| req_url := "https://learn.cisecurity.org/x1";
           req_headers := [];
           req_cookies := [("documentId", "d1")] |}],
     Ok tt).
Proof.
  exact (total_size_from_content_length
           (Scenario.server 200 [("Content-Length", "12")])
           (KStr "d1") "https://learn.cisecurity.org/x1"
           "Operating Systems/Linux/bench.pdf" "1/1" Scenario.ready_world
           (Scenario.answer 200 [("Content-Length", "12")])
           eq_refl eq_refl eq_refl).
Defined.

(** A [content-length] that is not an integer: the worker raises, where the
    specification has a total of 0 and no exception. *)
Lemma unparseable_content_length_raises :
  let response := Scenario.answer 200 [("Content-Length", "abc")] in
  headers_get (headers response) "content-length" = Some "abc"
  /\ total_size_of response = Raise ValueError
  /\ total_size_of response <> Ok 0%Z
  /\ download_benchmark_file (Scenario.server 200 [("Content-Length", "abc")])
       (KStr "d1") "https://learn.cisecurity.org/x1"
       "Operating Systems/Linux/bench.pdf" "1/1" Scenario.empty_world
     = (Build_world []
          []
          [{| req_url := "https://learn.cisecurity.org/x1";
              req_headers := [];
              req_cookies := [("documentId", "d1")] |}],
        Raise ValueError).
Proof.
  intros response. repeat split; try reflexivity. discriminate.
Qed.

Lemma http_error_aborts_the_run_witness :
  let http_get := Scenario.server_missing "https://learn.cisecurity.org/x2" in
  let r1 := {| resource_id := KStr "d1";
               resource_filename := "Operating Systems/Linux/bench.pdf";
               resource_pdf_url := "https://learn.cisecurity.org/x1" |} in
  let r2 := {| resource_id := KStr "d2";
               resource_filename := "Operating Systems/Linux/guide.pdf";
               resource_pdf_url := "https://learn.cisecurity.org/x2" |} in
  let r3 := {| resource_id := KStr "d3";
               resource_filename := "Operating Systems/Linux/notes.pdf";
               resource_pdf_url := "https://learn.cisecurity.org/x3" |} in
  let w1 := fst (download_in_sequence http_get [(r1, "1/3")] Scenario.ready_world) in
  let stopped := after_request w1 (download_request r2) in
  planned_downloads Scenario.discovered_catalog
    = [(r1, "1/3"); (r2, "2/3"); (r3, "3/3")]
  /\ download_one http_get (r2, "2/3") w1 = (stopped, Raise HTTPError)
  /\ main_downloads http_get Scenario.discovered_catalog Scenario.ready_world
     = (stopped, Raise HTTPError)
  /\ sent stopped = [download_request r1; download_request r2]
  /\ Forall
       (fun c => fs_exists (fs stopped) (resource_filename (fst c)) = true)
       [(r1, "1/3")].
Proof.
  intros http_get r1 r2 r3 w1 stopped.
  assert (Hplan : planned_downloads Scenario.discovered_catalog
                  = [(r1, "1/3"); (r2, "2/3"); (r3, "3/3")]) by reflexivity.
  assert (Hbefore : download_in_sequence http_get [(r1, "1/3")] Scenario.ready_world
                    = (w1, Ok tt)) by reflexivity.
  assert (Hfree : fs_exists (fs w1) (resource_filename r2) = false) by reflexivity.
  assert (Hget : http_get (sent w1) (download_request r2)
                 = Ok (Scenario.answer 404 [])) by reflexivity.
  assert (Hstatus : (400 <= status_code (Scenario.answer 404 []) < 600)%Z)
    by (simpl; lia).
  split; [exact Hplan |].
  destruct (http_error_aborts_the_run http_get Scenario.discovered_catalog
              Scenario.ready_world w1 [(r1, "1/3")] [(r3, "3/3")] (r2, "2/3")
              (Scenario.answer 404 []) Hplan Hbefore Hfree Hget Hstatus)
    as (Hone & Hmain & Hfiles).
  split; [exact Hone |]. split; [exact Hmain |].
  split; [reflexivity | exact Hfiles].
Defined.

(** A status that is neither a success nor an error for the client, on a
    disk that holds the directory of the technology: the worker raises
    nothing and writes the file, empty as the body is, and the loop goes on
    to the next resources. *)
Lemma status_304_is_downloaded :
  let http_get := Scenario.server_not_modified in
  ~ (200 <= status_code Scenario.not_modified < 300)%Z
  /\ download_benchmark_file http_get (KStr "d1")
       "https://learn.cisecurity.org/x1" "Operating Systems/Linux/bench.pdf"
       "1/3" Scenario.ready_world
     = (Build_world
          (fs Scenario.ready_world
             ++ [("Operating Systems/Linux/bench.pdf", File [])])%list
          [ProgressTask "bench.pdf Downloading..." 0]
          [{| req_url := "https://learn.cisecurity.org/x1";
              req_headers := [];
              req_cookies := [("documentId", "d1")] |}],
        Ok tt)
  /\ snd (main_downloads http_get Scenario.discovered_catalog Scenario.ready_world)
     = Ok tt
  /\ map req_url
       (sent (fst (main_downloads http_get Scenario.discovered_catalog
                     Scenario.ready_world)))
     = ["https://learn.cisecurity.org/x1";
        "https://learn.cisecurity.org/x2";
        "https://learn.cisecurity.org/x3"].
Proof.
  intros http_get. split; [simpl; lia |]. repeat split; reflexivity.
Qed.

Lemma relative_filename_is_appended_to_directory_witness :
  let response := Scenario.observed "7" Scenario.three_documents in
  exists rs,
    Dict.get (fst (process_benchmark_response response Scenario.catalog)) "7"
    = Some (add_records rs Scenario.linux)
    /\ Forall
         (fun r =>
            exists json_data info entry f,
              response_json response = Ok json_data
              /\ extract_document_info json_data = Ok info
              /\ In (resource_id r, entry) info
              /\ filename entry = JStr f
              /\ resource_filename r = Str.join "Operating Systems/Linux" f
              /\ (Str.startswith f Str.sep = false ->
                  resource_filename r = with_sep "Operating Systems/Linux" ++ f
                  /\ Str.startswith (resource_filename r)
                       (with_sep "Operating Systems/Linux") = true))
         rs.
Proof.
  intros response.
  exact (relative_filename_is_appended_to_directory response Scenario.catalog "7"
           Scenario.linux (conj eq_refl (conj eq_refl I)) eq_refl).
Defined.

(** A document whose file name is an absolute path: the record's file path
    is that path, outside the technology's directory. *)
Lemma absolute_filename_escapes_directory :
  let response :=
    Scenario.observed "7" [Scenario.document "d1" "/x1" "/etc/passwd"] in
  process_benchmark_response response Scenario.catalog
  = ([("7", {| tech_path := "Operating Systems/Linux";
               resource_list :=
                 [{| resource_id := KStr "d1";
                     resource_filename := "/etc/passwd";
                     resource_pdf_url := "https://learn.cisecurity.org/x1" |}] |});
      ("17", Scenario.windows)],
     Ok tt)
  /\ Str.startswith "/etc/passwd" "Operating Systems/Linux" = false.
Proof.
  intros response. repeat split; reflexivity.
Qed.

(** A file name with [..] segments is joined as it is: the directory is a
    prefix of the path, which leads out of the directory all the same. *)
Lemma parent_segments_are_kept :
  let response :=
    Scenario.observed "7"
      [Scenario.document "d1" "/x1" "../../../etc/cron.d/evil"] in
  Dict.get (fst (process_benchmark_response response Scenario.catalog)) "7"
  = Some {| tech_path := "Operating Systems/Linux";
            resource_list :=
              [{| resource_id := KStr "d1";
                  resource_filename :=
                    "Operating Systems/Linux/../../../etc/cron.d/evil";
                  resource_pdf_url := "https://learn.cisecurity.org/x1" |}] |}.
Proof.
  reflexivity.
Qed.




Lemma last_document_of_an_id_wins_witness :
  let json_data :=
    Scenario.latest
      [Scenario.document "d1" "/x1" "first.pdf";
       Scenario.document "d2" "/x2" "other.pdf";
       Scenario.document "d1" "/x3" "last.pdf"] in
  let info : document_info :=
    [(KStr "d1", {| pardot_id := JStr "/x3"; filename := JStr "last.pdf" |});
     (KStr "d2", {| pardot_id := JStr "/x2"; filename := JStr "other.pdf" |})] in
  exists documents,
    all_documents json_data = Ok documents
    /\ Dict.wf info
    /\ forall before d after k e,
         documents = (before ++ d :: after)%list ->
         read_document d = Ok (k, e) ->
         (forall d' k' e', In d' after -> read_document d' = Ok (k', e') ->
                           key_eqb k' k = false) ->
         Dict.get info k = Some e
         /\ List.length (filter (key_eqb k) (Dict.keys info)) = 1
         /\ forall path rs,
              records_of path info = (rs, Ok tt) ->
              List.length (filter (fun r => key_eqb k (resource_id r)) rs) = 1.
Proof.
  intros json_data info.
  exact (last_document_of_an_id_wins json_data info eq_refl).
Defined.

(** * Further properties *)

(** ** The download worker, on any file system *)

Section WorkerMore.

Context {FS : Type} `{FileSystemLaws FS}.

Variable http_get : list request -> request -> result http_response.

Lemma download_skip (call : resource * string) (w : world FS) :
  fs_exists (fs w) (resource_filename (fst call)) = true ->
  download_one http_get call w =
  (Build_world (fs w) (console w ++ [skip_notice call]) (sent w), Ok tt).
Proof.
  intros Hexists. unfold download_one, download_benchmark_file.
  rewrite Hexists. reflexivity.
Qed.

(** X1.  When [requests.get] itself raises, the worker raises the same
    exception: the request went out, no file was opened and nothing was
    printed. *)
Theorem request_exception_opens_no_file
  (document_id : pykey) (download_url file_path progress_indicator : string)
  (w : world FS) (e : exn) :
  fs_exists (fs w) file_path = false ->
  http_get (sent w)
    {| req_url := download_url; req_headers := [];
       req_cookies := [("documentId", py_str_key document_id)] |} = Raise e ->
  download_benchmark_file http_get document_id download_url file_path
    progress_indicator w
  = (Build_world (fs w) (console w)
       (sent w ++ [{| req_url := download_url; req_headers := [];
                      req_cookies := [("documentId", py_str_key document_id)] |}]),
     Raise e).
Proof.
  intros Hfree Hget.
  exact (download_request_fails http_get document_id download_url file_path
           progress_indicator w e Hfree Hget).
Qed.

(** Downloads whose paths all exist are all skipped. *)
Lemma sequence_of_existing_is_skipped (calls : list (resource * string))
  (w : world FS) :
  Forall (fun c => fs_exists (fs w) (resource_filename (fst c)) = true) calls ->
  download_in_sequence http_get calls w =
  (Build_world (fs w) (console w ++ map skip_notice calls) (sent w), Ok tt).
Proof.
  revert w; induction calls as [|c calls IH]; intros w Hall; simpl.
  - unfold mret. rewrite app_nil_r. now destruct w.
  - inversion Hall as [|c' calls' Hc Hcalls]; subst.
    unfold mbind. rewrite (download_skip c w Hc).
    rewrite IH by exact Hcalls. simpl. now rewrite <- app_assoc.
Qed.

End WorkerMore.

Section Rerun.

Context {FS : Type} `{FileSystemLaws FS}.

(** X2.  Once the download phase of [main] has ended without an exception,
    running it again on the same mapping, with any server, sends no request
    and changes no file: it prints one notice per resource and returns. *)
Theorem second_run_downloads_nothing
  (http_get http_get' : list request -> request -> result http_response)
  (d : technologies) (w w1 : world FS) :
  main_downloads http_get d w = (w1, Ok tt) ->
  main_downloads http_get' d w1 =
  (Build_world (fs w1) (console w1 ++ map skip_notice (planned_downloads d)) (sent w1),
   Ok tt).
Proof.
  intros Hfirst. rewrite main_downloads_sequence in Hfirst.
  rewrite main_downloads_sequence.
  apply sequence_of_existing_is_skipped.
  exact (sequence_leaves_files http_get (planned_downloads d) w w1 Hfirst).
Qed.

End Rerun.

Section RequestsSent.

Context {FS : Type} `{FileSystem FS}.

Variable http_get : list request -> request -> result http_response.

Lemma download_one_sent (call : resource * string) (w : world FS) :
  sent (fst (download_one http_get call w)) = sent w
  \/ sent (fst (download_one http_get call w))
     = (sent w ++ [download_request (fst call)])%list.
Proof.
  destruct (fs_exists (fs w) (resource_filename (fst call))) eqn:Hexists.
  - left. unfold download_one, download_benchmark_file. now rewrite Hexists.
  - right. now apply download_sends_one_request.
Qed.

Lemma subsequence_of_nothing {A : Type} (l : list A) : subsequence [] l.
Proof.
  induction l as [|a l IH]; [constructor | now apply subsequence_skip].
Qed.

Lemma sequence_sent (calls : list (resource * string)) (w : world FS) :
  exists l,
    sent (fst (download_in_sequence http_get calls w))
    = (sent w ++ map (fun c => download_request (fst c)) l)%list
    /\ subsequence l calls.
Proof.
  revert w; induction calls as [|c calls IH]; intros w; simpl.
  - exists []. simpl. rewrite app_nil_r. split; [reflexivity | constructor].
  - unfold mbind. pose proof (download_one_sent c w) as Hone.
    destruct (download_one http_get c w) as [w1 [[]|e]]; simpl in Hone.
    + destruct (IH w1) as (l & Hl & Hsub). rewrite Hl.
      destruct Hone as [-> | ->].
      * exists l. split; [reflexivity | now apply subsequence_skip].
      * exists (c :: l). simpl. rewrite <- app_assoc. simpl.
        split; [reflexivity | now apply subsequence_keep].
    + simpl. destruct Hone as [-> | ->].
      * exists []. simpl. rewrite app_nil_r.
        split; [reflexivity | apply subsequence_of_nothing].
      * exists [c]. simpl.
        split; [reflexivity |].
        apply subsequence_keep. apply subsequence_of_nothing.
Qed.

(** X3.  The requests the download phase of [main] sends are, in order,
    the GETs of some of the planned resources, each planned download
    giving one request at most: the list of the downloads that sent one is
    the planned list with elements left out. *)
Theorem requests_are_those_of_resources (d : technologies) (w : world FS) :
  exists l,
    sent (fst (main_downloads http_get d w))
    = (sent w ++ map (fun c => download_request (fst c)) l)%list
    /\ subsequence l (planned_downloads d).
Proof.
  rewrite main_downloads_sequence.
  exact (sequence_sent (planned_downloads d) w).
Qed.

End RequestsSent.

(** ** The download worker, on the disk model *)

Lemma set_absent {K V : Type} `{PyKeyLaws K} (d : Dict.t K V) (k : K) (v : V) :
  Dict.get d k = None -> Dict.set d k v = (d ++ [(k, v)])%list.
Proof.
  induction d as [|[k0 v0] d IH]; simpl; [reflexivity |].
  destruct (key_eqb k k0); [discriminate |]. intros Hd. now rewrite IH.
Qed.

#[export] Instance FileReaderLaws_disk : FileReaderLaws disk.
Proof.
  split; simpl.
  - intros d d' path. unfold disk_open_wb.
    destruct (Dict.get d path) as [[|c]|]; intros Heq; try discriminate;
      injection Heq as <-; now rewrite get_set_same.
  - intros d d' path chunk content. unfold disk_write.
    destruct (Dict.get d path) as [[|c]|]; intros Heq; try discriminate.
    injection Heq as <-. intros [= ->]. now rewrite get_set_same.
Qed.

Section Written.

Context {FS : Type} `{FileReaderLaws FS}.

Variable http_get : list request -> request -> result http_response.

(** The loop over the chunks, when it returns: the file has grown by the
    chunks and the display by their steps. *)
Lemma write_chunks_read (file_path : string) (chunks : list (list Byte.byte))
  (w w' : world FS) (written : list Byte.byte) :
  write_chunks file_path chunks w = (w', Ok tt) ->
  fs_read (fs w) file_path = Some written ->
  fs_read (fs w') file_path = Some (written ++ List.concat chunks)%list
  /\ console w' = (console w ++ advances chunks)%list
  /\ sent w' = sent w.
Proof.
  revert w written; induction chunks as [|chunk chunks IH]; intros w written.
  - simpl. unfold mret, advances. intros [= <-] Hread. simpl.
    now rewrite !app_nil_r.
  - destruct chunk as [|b chunk].
    + simpl. apply IH.
    + cbn [write_chunks]. unfold mbind at 1. unfold on_fs.
      destruct (fs_write file_path (b :: chunk) (fs w)) as [d1 [[]|e]] eqn:Hwrite;
        [| discriminate].
      unfold mbind at 1. unfold emit, mmodify. cbn [fs console sent].
      intros Hrest Hread.
      pose proof (read_after_write (fs w) d1 file_path (b :: chunk) written
                    Hwrite Hread) as Hread1.
      destruct (IH _ _ Hrest Hread1) as (Hfile & Hconsole & Hsent).
      cbn [fs console sent] in Hfile, Hconsole, Hsent.
      unfold advances. cbn [List.concat filter map List.length Nat.eqb negb].
      rewrite Hfile, Hconsole, Hsent, <- !app_assoc. auto.
Qed.

(** X4.  A download to a free path that returns has passed the status
    check and read a total, has met no exception in the stream, and has
    written the body: read back, the file holds the chunks in order; the
    progress display got the total, then one step per non-empty chunk, of
    its length; one request was sent. *)
Theorem download_writes_the_body
  (document_id : pykey) (download_url file_path progress_indicator : string)
  (w w' : world FS) (response : http_response) :
  let req := {| req_url := download_url; req_headers := [];
                req_cookies := [("documentId", py_str_key document_id)] |} in
  fs_exists (fs w) file_path = false ->
  http_get (sent w) req = Ok response ->
  download_benchmark_file http_get document_id download_url file_path
    progress_indicator w = (w', Ok tt) ->
  raise_for_status response = Ok tt
  /\ content_error response = None
  /\ exists total,
       total_size_of response = Ok total
       /\ fs_read (fs w') file_path = Some (List.concat (content response))
       /\ console w'
          = (console w
               ++ ProgressTask (Str.basename file_path ++ " Downloading...") total
               :: advances (content response))%list
       /\ sent w' = (sent w ++ [req])%list.
Proof.
  intros req Hfree Hget.
  rewrite (download_fresh http_get document_id download_url file_path
             progress_indicator w response Hfree Hget). fold req.
  unfold mbind at 1, mlift at 1.
  destruct (raise_for_status response) as [[]|e]; [| discriminate].
  unfold mbind at 1, mlift at 1.
  destruct (total_size_of response) as [total|e]; [| discriminate].
  unfold mbind at 1. unfold on_fs, after_request. cbn [fs console sent].
  destruct (fs_open_wb file_path (fs w)) as [d1 [[]|e]] eqn:Hopen; [| discriminate].
  apply read_after_open in Hopen.
  unfold mbind at 1. unfold emit, mmodify. cbn [fs console sent]. unfold mbind.
  destruct (write_chunks file_path (content response) _) as [w3 [[]|e]] eqn:Hwrite;
    [| discriminate].
  destruct (write_chunks_read file_path (content response) _ w3 [] Hwrite Hopen)
    as (Hfile & Hconsole & Hsent).
  cbn [fs console sent] in Hfile, Hconsole, Hsent.
  destruct (content_error response); [discriminate |].
  unfold mret. intros [= <-].
  split; [reflexivity |]. split; [reflexivity |].
  exists total. split; [reflexivity |].
  rewrite Hfile, Hconsole, Hsent, <- app_assoc. auto.
Qed.

End Written.

Section NoRetry.

Context {FS : Type} `{FileSystemLaws FS}.

Variable http_get : list request -> request -> result http_response.

(** X5.  Once the worker has opened the destination file, the path exists
    whatever happens next (a failed write, an interrupted stream): nothing
    removes a partial file, and every later call for that path, with any
    server, is skipped without a request. *)
Theorem opened_file_is_never_retried
  (document_id : pykey) (download_url file_path progress_indicator : string)
  (w : world FS) (response : http_response) (total : Z) (opened : FS) :
  fs_exists (fs w) file_path = false ->
  http_get (sent w)
    {| req_url := download_url; req_headers := [];
       req_cookies := [("documentId", py_str_key document_id)] |} = Ok response ->
  raise_for_status response = Ok tt ->
  total_size_of response = Ok total ->
  fs_open_wb file_path (fs w) = (opened, Ok tt) ->
  let w' := fst (download_benchmark_file http_get document_id download_url
                   file_path progress_indicator w) in
  fs_exists (fs w') file_path = true
  /\ forall (http_get' : list request -> request -> result http_response)
       (document_id' : pykey) (download_url' progress_indicator' : string),
       download_benchmark_file http_get' document_id' download_url' file_path
         progress_indicator' w'
       = (Build_world (fs w')
            (console w' ++
               [Print (carriage_return ++ progress_indicator'
                         ++ " File already exists: " ++ Str.basename file_path)])
            (sent w'),
          Ok tt).
Proof.
  intros Hfree Hget Hstatus Htotal Hopen w'.
  assert (Hexists : fs_exists (fs w') file_path = true).
  { subst w'.
    rewrite (download_fresh http_get document_id download_url file_path
               progress_indicator w response Hfree Hget).
    unfold mbind at 1, mlift at 1. rewrite Hstatus.
    unfold mbind at 1, mlift at 1. rewrite Htotal.
    unfold mbind at 1. unfold on_fs at 1, after_request. cbn [fs].
    rewrite Hopen. apply open_wb_creates in Hopen.
    set (w2 := Build_world opened _ _).
    assert (H2 : fs_exists (fs w2) file_path = true) by exact Hopen.
    clearbody w2. revert w2 H2.
    assert (Hrest : keeps_paths
              (run emit (ProgressTask (Str.basename file_path ++ " Downloading...")
                           total);
               run write_chunks file_path (content response);
               match content_error response with
               | Some e => mraise e
               | None => mret tt
               end)%monad).
    { apply keeps_bind; [apply keeps_emit | intros _].
      apply keeps_bind; [apply keeps_write_chunks | intros _].
      destruct (content_error response); intros w3 q Hq; exact Hq. }
    intros w2 H2. exact (Hrest w2 file_path H2). }
  split; [exact Hexists |].
  intros http_get' document_id' download_url' progress_indicator'.
  unfold download_benchmark_file at 1. rewrite Hexists. reflexivity.
Qed.

End NoRetry.

Section Untouched.

Variable http_get : list request -> request -> result http_response.

Lemma keeps_entry_bind {A B : Type} (path : string) (n : node)
  (m : M (world disk) A) (k : A -> M (world disk) B) :
  keeps_entry path n m -> (forall a, keeps_entry path n (k a)) ->
  keeps_entry path n (mbind m k).
Proof.
  intros Hm Hk w Hw. unfold mbind. specialize (Hm w Hw).
  destruct (m w) as [w' [a|e]]; simpl in *; [now apply Hk | assumption].
Qed.

Lemma keeps_entry_open (path q : string) (n : node) :
  String.eqb q path = false -> keeps_entry path n (on_fs (fs_open_wb q)).
Proof.
  intros Hq w Hw. change (key_eqb q path = false) in Hq.
  unfold on_fs. cbn [fs_open_wb FileSystem_disk].
  unfold disk_open_wb. destruct (Dict.get (fs w) q) as [[|c]|]; simpl;
    try assumption; now rewrite (get_set_other (fs w) q _ path Hq).
Qed.

Lemma keeps_entry_write (path q : string) (n : node) (chunk : list Byte.byte) :
  String.eqb q path = false -> keeps_entry path n (on_fs (fs_write q chunk)).
Proof.
  intros Hq w Hw. change (key_eqb q path = false) in Hq.
  unfold on_fs. cbn [fs_write FileSystem_disk].
  unfold disk_write. destruct (Dict.get (fs w) q) as [[|c]|]; simpl;
    try assumption; now rewrite (get_set_other (fs w) q _ path Hq).
Qed.

Lemma keeps_entry_write_chunks (path q : string) (n : node)
  (chunks : list (list Byte.byte)) :
  String.eqb q path = false -> keeps_entry path n (write_chunks q chunks).
Proof.
  intros Hq. induction chunks as [|chunk rest IH]; simpl.
  - intros w Hw. exact Hw.
  - destruct chunk as [|b chunk]; [assumption |].
    apply keeps_entry_bind; [now apply keeps_entry_write | intros _].
    apply keeps_entry_bind; [intros w Hw; exact Hw | intros _; assumption].
Qed.

Lemma keeps_entry_download (path : string) (n : node) (call : resource * string) :
  keeps_entry path n (download_one http_get call).
Proof.
  intros w Hw. unfold download_one, download_benchmark_file.
  destruct (fs_exists (fs w) (resource_filename (fst call))) eqn:Hexists;
    [exact Hw |].
  assert (Hq : String.eqb (resource_filename (fst call)) path = false).
  { destruct (String.eqb (resource_filename (fst call)) path) eqn:E; [| reflexivity].
    apply String.eqb_eq in E. rewrite E in Hexists.
    simpl in Hexists. unfold disk_exists in Hexists. now rewrite Hw in Hexists. }
  revert w Hw Hexists. intros w Hw _. revert w Hw.
  apply keeps_entry_bind; [intros w Hw; exact Hw | intros response].
  apply keeps_entry_bind; [intros w Hw; exact Hw | intros _].
  apply keeps_entry_bind; [intros w Hw; exact Hw | intros total_size].
  apply keeps_entry_bind; [now apply keeps_entry_open | intros _].
  apply keeps_entry_bind; [intros w Hw; exact Hw | intros _].
  apply keeps_entry_bind; [now apply keeps_entry_write_chunks | intros _].
  destruct (content_error response); intros w Hw; exact Hw.
Qed.

Lemma keeps_entry_sequence (path : string) (n : node)
  (calls : list (resource * string)) :
  keeps_entry path n (download_in_sequence http_get calls).
Proof.
  induction calls as [|c calls IH]; simpl.
  - intros w Hw. exact Hw.
  - apply keeps_entry_bind; [apply keeps_entry_download | intros _; assumption].
Qed.

(** X6.  On the disk model the download phase of [main] never touches what
    was there when it started: a path that held a file or a directory holds
    the same file, byte for byte, or the same directory when the phase ends,
    however it ends. *)
Theorem existing_entries_are_never_overwritten
  (d : technologies) (w : world disk) (path : string) (n : node) :
  Dict.get (fs w) path = Some n ->
  Dict.get (fs (fst (main_downloads http_get d w))) path = Some n.
Proof.
  intros Hw. rewrite main_downloads_sequence.
  exact (keeps_entry_sequence path n (planned_downloads d) w Hw).
Qed.

End Untouched.

(** ** The document mapping, document by document *)

Lemma extract_documents_read (documents : list json)
  (kvs : list (pykey * document_entry)) (info : document_info) :
  read_documents documents = Ok kvs ->
  extract_documents documents info
  = Ok (fold_left (fun d kv => Dict.set d (fst kv) (snd kv)) kvs info).
Proof.
  revert kvs info; induction documents as [|doc documents IH]; intros kvs info; simpl.
  - now intros [= <-].
  - destruct (read_document doc) as [kv|e]; simpl; [| discriminate].
    destruct (read_documents documents) as [kvs'|e] eqn:E; simpl; [| discriminate].
    intros [= <-]. simpl. now apply IH.
Qed.

Lemma extract_documents_reads (documents : list json) (info info' : document_info) :
  extract_documents documents info = Ok info' ->
  exists kvs, read_documents documents = Ok kvs.
Proof.
  revert info; induction documents as [|doc documents IH]; intros info; simpl.
  - intros _. now exists [].
  - destruct (read_document doc) as [kv|e]; simpl; [| discriminate].
    intros Hrest. destruct (IH _ Hrest) as [kvs ->]. simpl. now exists (kv :: kvs).
Qed.

Lemma extract_documents_raises (before after : list json) (doc : json)
  (kvs : list (pykey * document_entry)) (info : document_info) (e : exn) :
  read_documents before = Ok kvs ->
  read_document doc = Raise e ->
  extract_documents (before ++ doc :: after) info = Raise e.
Proof.
  intros Hbefore Hdoc. rewrite extract_documents_app.
  rewrite (extract_documents_read before kvs info Hbefore). simpl.
  now rewrite Hdoc.
Qed.

(** The loop over the categories does what the loop over all the documents
    would do, when the documents can be listed. *)
Lemma extract_categories_as_documents (categories documents : list json)
  (info : document_info) :
  documents_of_categories categories = Ok documents ->
  extract_categories categories info = extract_documents documents info.
Proof.
  revert documents info; induction categories as [|c categories IH];
    intros documents info; simpl.
  - now intros [= <-].
  - destruct (py_getitem c "documents") as [dv|e]; simpl; [| discriminate].
    destruct (py_iter dv) as [ds|e]; simpl; [| discriminate].
    destruct (documents_of_categories categories) as [more|e]; simpl;
      [| discriminate].
    intros [= <-]. rewrite extract_documents_app.
    destruct (extract_documents ds info) as [info1|e]; simpl; [| reflexivity].
    now apply IH.
Qed.

Lemma extract_as_documents (json_data : json) (documents : list json) :
  all_documents json_data = Ok documents ->
  extract_document_info json_data = extract_documents documents [].
Proof.
  unfold all_documents, extract_document_info, json_roundtrip.
  destruct (py_iter json_data) as [categories|e]; simpl; [| discriminate].
  apply extract_categories_as_documents.
Qed.

Section Insertions.

Context {K V : Type} `{PyKeyLaws K}.

Lemma in_set (d : Dict.t K V) (k k' : K) (v v' : V) :
  In (k, v) (Dict.set d k' v') ->
  In (k, v) d \/ (v = v' /\ key_eqb k' k = true).
Proof.
  induction d as [|[k0 v0] d IH]; simpl.
  - intros [[= <- <-] | []]. right. split; [reflexivity | apply key_eqb_refl].
  - destruct (key_eqb k' k0) eqn:E; simpl.
    + intros [[= <- <-] | Hin]; [right; auto | left; now right].
    + intros [Heq | Hin]; [left; now left |].
      destruct (IH Hin) as [Hd | Hnew]; [left; now right | now right].
Qed.

Lemma get_set_some (d : Dict.t K V) (k k' : K) (v : V) :
  Dict.get d k <> None -> Dict.get (Dict.set d k' v) k <> None.
Proof.
  intros Hk. destruct (key_eqb k' k) eqn:E.
  - now rewrite (get_set_equal d k' v k E).
  - now rewrite (get_set_other d k' v k E).
Qed.

Lemma length_set (d : Dict.t K V) (k : K) (v : V) :
  List.length (Dict.set d k v) <= S (List.length d).
Proof.
  induction d as [|[k0 v0] d IH]; simpl; [lia |].
  destruct (key_eqb k k0); simpl; lia.
Qed.

Lemma fold_set_present (kvs : list (K * V)) (d : Dict.t K V) (k : K) :
  (Dict.get d k <> None \/ exists v, In (k, v) kvs) ->
  Dict.get (fold_left (fun d kv => Dict.set d (fst kv) (snd kv)) kvs d) k <> None.
Proof.
  revert d; induction kvs as [|[k0 v0] kvs IH]; intros d; simpl.
  - intros [Hd | [v []]]. exact Hd.
  - intros [Hd | [v [[= -> ->] | Hin]]]; apply IH.
    + left. now apply get_set_some.
    + left. rewrite get_set_same. discriminate.
    + right. now exists v.
Qed.

Lemma fold_set_origin (kvs : list (K * V)) (d : Dict.t K V) (k : K) (v : V) :
  In (k, v) (fold_left (fun d kv => Dict.set d (fst kv) (snd kv)) kvs d) ->
  In (k, v) d \/ exists k', In (k', v) kvs /\ key_eqb k k' = true.
Proof.
  revert d; induction kvs as [|[k0 v0] kvs IH]; intros d; simpl.
  - now left.
  - intros Hin. destruct (IH _ Hin) as [Hset | (k' & Hk' & Heq)].
    + destruct (in_set d k k0 v v0 Hset) as [Hd | [-> Heq]]; [now left |].
      right. exists k0. split; [now left | now rewrite key_eqb_sym].
    + right. exists k'. split; [now right | assumption].
Qed.

Lemma fold_set_length (kvs : list (K * V)) (d : Dict.t K V) :
  List.length (fold_left (fun d kv => Dict.set d (fst kv) (snd kv)) kvs d)
  <= List.length d + List.length kvs.
Proof.
  revert d; induction kvs as [|[k0 v0] kvs IH]; intros d; simpl; [lia |].
  specialize (IH (Dict.set d k0 v0)). pose proof (length_set d k0 v0). lia.
Qed.

(** Items with distinct keys are inserted one after the other. *)
Lemma fold_set_distinct (kvs : list (K * V)) (d : Dict.t K V) :
  Dict.wf (d ++ kvs)%list ->
  fold_left (fun d kv => Dict.set d (fst kv) (snd kv)) kvs d = (d ++ kvs)%list.
Proof.
  revert d; induction kvs as [|[k0 v0] kvs IH]; intros d Hwf; simpl.
  - now rewrite app_nil_r.
  - rewrite (set_absent d k0 v0 (wf_app_get d kvs k0 v0 Hwf)).
    rewrite IH; rewrite <- app_assoc; [reflexivity | exact Hwf].
Qed.

End Insertions.

Lemma read_documents_length (documents : list json)
  (kvs : list (pykey * document_entry)) :
  read_documents documents = Ok kvs -> List.length kvs = List.length documents.
Proof.
  revert kvs; induction documents as [|doc documents IH]; intros kvs; simpl.
  - now intros [= <-].
  - destruct (read_document doc) as [kv|e]; simpl; [| discriminate].
    destruct (read_documents documents) as [kvs'|e]; simpl; [| discriminate].
    intros [= <-]. simpl. now rewrite (IH kvs' eq_refl).
Qed.

(** X7.  When [extract_document_info] returns, every document of the
    response had its three fields and a hashable id; every document's id
    has an entry, every entry holds the fields of a document with an equal
    id, and the mapping has no more entries than the response has
    documents. *)
Theorem extraction_is_faithful (json_data : json) (info : document_info) :
  extract_document_info json_data = Ok info ->
  exists documents kvs,
    all_documents json_data = Ok documents
    /\ read_documents documents = Ok kvs
    /\ (forall k e, In (k, e) kvs -> Dict.get info k <> None)
    /\ (forall k e, In (k, e) info ->
          exists k', In (k', e) kvs /\ key_eqb k k' = true)
    /\ List.length info <= List.length documents.
Proof.
  intros Hinfo.
  destruct (extract_document_info_documents json_data info Hinfo)
    as (documents & Hall & Hdocs).
  destruct (extract_documents_reads documents [] info Hdocs) as [kvs Hkvs].
  rewrite (extract_documents_read documents kvs [] Hkvs) in Hdocs.
  injection Hdocs as <-.
  exists documents, kvs. split; [exact Hall |]. split; [exact Hkvs |].
  split; [| split].
  - intros k e Hin. apply fold_set_present. right. now exists e.
  - intros k e Hin. destruct (fold_set_origin kvs [] k e Hin) as [[] | Hk].
    exact Hk.
  - rewrite <- (read_documents_length documents kvs Hkvs).
    exact (fold_set_length kvs []).
Qed.

(** X8.  When the documents of a response have their fields and pairwise
    different ids, the mapping lists them in the order of the response, one
    entry per document. *)
Theorem distinct_ids_keep_response_order
  (json_data : json) (documents : list json) (kvs : list (pykey * document_entry)) :
  all_documents json_data = Ok documents ->
  read_documents documents = Ok kvs ->
  Dict.wf kvs ->
  extract_document_info json_data = Ok kvs.
Proof.
  intros Hall Hkvs Hwf.
  rewrite (extract_as_documents json_data documents Hall).
  rewrite (extract_documents_read documents kvs [] Hkvs).
  now rewrite (fold_set_distinct kvs [] Hwf).
Qed.

(** X9.  A document that cannot be read is fatal: when the documents before
    it can be read, [extract_document_info] raises the exception of the
    first unreadable document (a missing key gives [KeyError], an id that
    is a list or an object [TypeError]) and returns no mapping. *)
Theorem unreadable_document_is_fatal
  (json_data : json) (before after : list json) (doc : json)
  (kvs : list (pykey * document_entry)) (e : exn) :
  all_documents json_data = Ok (before ++ doc :: after)%list ->
  read_documents before = Ok kvs ->
  read_document doc = Raise e ->
  extract_document_info json_data = Raise e.
Proof.
  intros Hall Hbefore Hdoc.
  rewrite (extract_as_documents json_data _ Hall).
  exact (extract_documents_raises before after doc kvs [] e Hbefore Hdoc).
Qed.

(** ** The observer, response by response *)

Lemma process_technologies_unmatched (response : browser_response)
  (ks : list string) (d : technologies) :
  (forall k, In k ks -> matches response k = false) ->
  process_technologies response ks d = (d, Ok tt).
Proof.
  induction ks as [|k ks IH]; intros Hks; simpl; [reflexivity |].
  unfold mbind, process_technology.
  pose proof (Hks k (or_introl eq_refl)) as Hk. unfold matches in Hk. rewrite Hk.
  unfold mret at 1. apply IH. intros k' Hin. apply Hks. now right.
Qed.

(** X10.  A response whose URL ends with no known id followed by
    [/benchmarks/latest] is ignored: its body is not read, the mapping is
    left as it is and nothing is raised, even when the body is not JSON. *)
Theorem unmatched_response_is_ignored
  (response : browser_response) (d : technologies) :
  (forall k, In k (Dict.keys d) ->
     Str.endswith (response_url response) (k ++ "/benchmarks/latest") = false) ->
  process_benchmark_response response d = (d, Ok tt).
Proof.
  intros Hks. unfold process_benchmark_response.
  now apply process_technologies_unmatched.
Qed.

Lemma process_technologies_unreadable (response : browser_response)
  (ks : list string) (d : technologies) (e : exn) :
  (exists k, In k ks /\ matches response k = true) ->
  (response_json response = Raise e
   \/ exists json_data,
        response_json response = Ok json_data
        /\ extract_document_info json_data = Raise e) ->
  process_technologies response ks d = (d, Raise e).
Proof.
  intros Hmatch Hbody. induction ks as [|k ks IH]; simpl.
  - destruct Hmatch as (k & [] & _).
  - unfold process_technology.
    destruct (Str.endswith (response_url response) (k ++ "/benchmarks/latest"))
      eqn:Hk.
    + unfold mbind, mlift.
      destruct Hbody as [Hjson | (json_data & Hjson & Hinfo)].
      * now rewrite Hjson.
      * rewrite Hjson. now rewrite Hinfo.
    + unfold mbind at 1. unfold mret at 1. apply IH.
      destruct Hmatch as (k' & [-> | Hin] & Hk').
      * unfold matches in Hk'. congruence.
      * now exists k'.
Qed.

(** X11.  When the URL of a response matches an id and its body is not
    JSON, or is JSON that [extract_document_info] refuses, the observer
    raises that exception and the mapping is left as it is. *)
Theorem unreadable_response_changes_nothing
  (response : browser_response) (d : technologies) (k : string) (e : exn) :
  In k (Dict.keys d) ->
  Str.endswith (response_url response) (k ++ "/benchmarks/latest") = true ->
  (response_json response = Raise e
   \/ exists json_data,
        response_json response = Ok json_data
        /\ extract_document_info json_data = Raise e) ->
  process_benchmark_response response d = (d, Raise e).
Proof.
  intros Hin Hk Hbody. unfold process_benchmark_response.
  apply process_technologies_unreadable; [| exact Hbody].
  now exists k.
Qed.

Lemma discover_all_unmatched (response : browser_response) (d : technologies) :
  (forall k, In k (Dict.keys d) -> matches response k = false) ->
  discover_all response d = (d, Ok tt).
Proof.
  induction d as [|[k0 tech0] d IH]; intros Hks; simpl; [reflexivity |].
  unfold discovered. pose proof (Hks k0 (or_introl eq_refl)) as Hk0.
  unfold matches in Hk0. rewrite Hk0.
  rewrite IH by (intros k Hin; apply Hks; now right).
  now rewrite add_records_nil.
Qed.

Lemma get_none_not_in (d : technologies) (k : string) :
  Dict.get d k = None -> ~ In k (Dict.keys d).
Proof.
  intros Hnone Hin. exact (get_keys d k Hin Hnone).
Qed.

(** When one id only matches, a pass is an update of that technology. *)
Lemma discover_all_single (response : browser_response) (d : technologies)
  (k : string) (tech : technology) :
  Dict.wf d ->
  Dict.get d k = Some tech ->
  (forall k', In k' (Dict.keys d) -> k' <> k -> matches response k' = false) ->
  discover_all response d
  = (Dict.update d k (add_records (fst (discovered response k (tech_path tech)))),
     snd (discovered response k (tech_path tech))).
Proof.
  induction d as [|[k0 tech0] d IH]; simpl; [discriminate |].
  intros [Hk0 Hwf] Hget Hothers.
  destruct (String.eqb k k0) eqn:Ek.
  - apply String.eqb_eq in Ek; subst k0. injection Hget as ->.
    destruct (discovered response k (tech_path tech)) as [rs [[]|e]]; simpl;
      [| reflexivity].
    rewrite discover_all_unmatched; [reflexivity |].
    intros k' Hin. apply Hothers; [now right |].
    intros ->. exact (get_none_not_in d k Hk0 Hin).
  - assert (Hk0' : matches response k0 = false).
    { apply Hothers; [now left |]. intros ->. now rewrite String.eqb_refl in Ek. }
    unfold discovered at 1. unfold matches in Hk0'. rewrite Hk0'.
    rewrite IH; [| exact Hwf | exact Hget |].
    + simpl. now rewrite add_records_nil.
    + intros k' Hin. apply Hothers. now right.
Qed.

(** X12.  When the URL of a response matches one id only and the body is
    read, the pass changes that technology alone: its list gets the records
    of the entries of the document mapping, in order, up to the first entry
    that cannot be made a record, and the pass raises there or returns. *)
Theorem single_match_updates_one_technology
  (response : browser_response) (d : technologies) (k : string) (tech : technology)
  (json_data : json) (info : document_info) :
  Dict.wf d ->
  Dict.get d k = Some tech ->
  Str.endswith (response_url response) (k ++ "/benchmarks/latest") = true ->
  (forall k', In k' (Dict.keys d) -> k' <> k ->
     Str.endswith (response_url response) (k' ++ "/benchmarks/latest") = false) ->
  response_json response = Ok json_data ->
  extract_document_info json_data = Ok info ->
  process_benchmark_response response d
  = (Dict.update d k (add_records (fst (records_of (tech_path tech) info))),
     snd (records_of (tech_path tech) info)).
Proof.
  intros Hwf Hget Hk Hothers Hjson Hinfo.
  rewrite (process_discover_all response d Hwf).
  rewrite (discover_all_single response d k tech Hwf Hget Hothers).
  unfold discovered. now rewrite Hk, Hjson, Hinfo.
Qed.

Lemma record_of_raises (path : string) (item : pykey * document_entry) (e : exn) :
  record_of path item = Raise e -> e = TypeError.
Proof.
  unfold record_of, py_concat, py_path_join.
  destruct (pardot_id (snd item)); simpl; try congruence;
    destruct (filename (snd item)); simpl; congruence.
Qed.

Lemma records_of_partial (path : string) (before after : document_info)
  (item : pykey * document_entry) (rs : list resource) (e : exn) :
  records_of path before = (rs, Ok tt) ->
  record_of path item = Raise e ->
  records_of path (before ++ item :: after)%list = (rs, Raise e).
Proof.
  revert rs; induction before as [|b before IH]; intros rs; simpl.
  - intros [= <-] ->. reflexivity.
  - destruct (record_of path b) as [r|e']; [| discriminate].
    destruct (records_of path before) as [rs' res'] eqn:E.
    intros [= <- ->] Hitem. now rewrite (IH rs' eq_refl Hitem).
Qed.

(** X13.  A pardot id or a file name that is not a string stops the pass
    with [TypeError], and what was appended before stays: when one id
    matches, its technology keeps the records of the entries that came
    before the offending one, and no other technology changes. *)
Theorem bad_field_leaves_a_partial_list
  (response : browser_response) (d : technologies) (k : string) (tech : technology)
  (json_data : json) (before after : document_info)
  (item : pykey * document_entry) (rs : list resource) (e : exn) :
  Dict.wf d ->
  Dict.get d k = Some tech ->
  Str.endswith (response_url response) (k ++ "/benchmarks/latest") = true ->
  (forall k', In k' (Dict.keys d) -> k' <> k ->
     Str.endswith (response_url response) (k' ++ "/benchmarks/latest") = false) ->
  response_json response = Ok json_data ->
  extract_document_info json_data = Ok (before ++ item :: after)%list ->
  records_of (tech_path tech) before = (rs, Ok tt) ->
  record_of (tech_path tech) item = Raise e ->
  process_benchmark_response response d
  = (Dict.update d k (add_records rs), Raise TypeError).
Proof.
  intros Hwf Hget Hk Hothers Hjson Hinfo Hbefore Hitem.
  rewrite (process_discover_all response d Hwf).
  rewrite (discover_all_single response d k tech Hwf Hget Hothers).
  unfold discovered. rewrite Hk, Hjson, Hinfo.
  rewrite (records_of_partial (tech_path tech) before after item rs e Hbefore Hitem).
  simpl. now rewrite (record_of_raises (tech_path tech) item e Hitem).
Qed.

(** X14.  A pass of the observer, however it ends, keeps the technology ids
    and their order, keeps every directory, and only appends to the
    resource lists: what a list held stays at its head, in order. *)
Theorem pass_only_appends (response : browser_response) (d : technologies) :
  Dict.wf d ->
  Dict.keys (fst (process_benchmark_response response d)) = Dict.keys d
  /\ forall k tech, Dict.get d k = Some tech ->
       exists rs,
         Dict.get (fst (process_benchmark_response response d)) k
         = Some {| tech_path := tech_path tech;
                   resource_list := resource_list tech ++ rs |}.
Proof.
  intros Hwf. rewrite (process_discover_all response d Hwf).
  split; [apply discover_all_keys |].
  intros k tech Hget.
  destruct (discover_all_appended response d k tech Hget) as (rs & Hrs & _).
  exists rs. exact Hrs.
Qed.

(** ** The tally after a pass *)

Lemma flat_map_entries (d : technologies) (l : list (string * technology)) :
  (forall kv, In kv l -> Dict.get d (fst kv) = Some (snd kv)) ->
  flat_map (resources_of d) (map fst l)
  = flat_map (fun kv => resource_list (snd kv)) l.
Proof.
  induction l as [|kv l IH]; intros Hl; simpl; [reflexivity |].
  rewrite IH by (intros kv' Hin; apply Hl; now right).
  unfold resources_of at 1. now rewrite (Hl kv (or_introl eq_refl)).
Qed.

(** With distinct keys the resources in order are those of the items. *)
Lemma resources_in_order_entries (d : technologies) :
  Dict.wf d ->
  resources_in_order d = flat_map (fun kv => resource_list (snd kv)) d.
Proof.
  intros Hwf. unfold resources_in_order, Dict.keys.
  apply flat_map_entries. intros [k tech] Hin. now apply get_in.
Qed.

Lemma discover_all_count (response : browser_response) (d d' : technologies)
  (json_data : json) (info : document_info) :
  response_json response = Ok json_data ->
  extract_document_info json_data = Ok info ->
  discover_all response d = (d', Ok tt) ->
  List.length (flat_map (fun kv => resource_list (snd kv)) d')
  = List.length (flat_map (fun kv => resource_list (snd kv)) d)
    + List.length (filter (matches response) (Dict.keys d)) * List.length info.
Proof.
  intros Hjson Hinfo. revert d'; induction d as [|[k0 tech0] d IH]; intros d'; simpl.
  - now intros [= <-].
  - destruct (discovered response k0 (tech_path tech0)) as [rs [[]|e]] eqn:E0;
      [| discriminate].
    destruct (discover_all response d) as [rest res]. intros [= <- ->].
    simpl. rewrite !length_app, (IH rest eq_refl).
    unfold discovered in E0. unfold matches at 2.
    destruct (Str.endswith (response_url response) (k0 ++ "/benchmarks/latest")).
    + rewrite Hjson, Hinfo in E0.
      pose proof (records_of_ids (tech_path tech0) info rs E0) as Hids.
      apply (f_equal (@List.length pykey)) in Hids.
      unfold Dict.keys in Hids. rewrite !length_map in Hids.
      simpl. lia.
    + injection E0 as <-. simpl. lia.
Qed.

(** X15.  After a pass that raises nothing, the number of resources [main]
    will tally has grown by the number of entries of the document mapping,
    once for every technology id the URL of the response ends with. *)
Theorem tally_grows_by_matches_times_documents
  (response : browser_response) (d d' : technologies)
  (json_data : json) (info : document_info) :
  Dict.wf d ->
  response_json response = Ok json_data ->
  extract_document_info json_data = Ok info ->
  process_benchmark_response response d = (d', Ok tt) ->
  List.length (resources_in_order d')
  = List.length (resources_in_order d)
    + List.length
        (filter
           (fun k => Str.endswith (response_url response) (k ++ "/benchmarks/latest"))
           (Dict.keys d))
      * List.length info.
Proof.
  intros Hwf Hjson Hinfo Hprocess.
  assert (Hwf' : Dict.wf d').
  { pose proof (process_keeps_wf response d Hwf) as Hkeep.
    now rewrite Hprocess in Hkeep. }
  rewrite (resources_in_order_entries d' Hwf'), (resources_in_order_entries d Hwf).
  rewrite (process_discover_all response d Hwf) in Hprocess.
  exact (discover_all_count response d d' json_data info Hjson Hinfo Hprocess).
Qed.

(** ** Before any response *)

Lemma init_technologies_empty (items : list (string * string)) (d : technologies) :
  (forall k tech, Dict.get d k = Some tech -> resource_list tech = []) ->
  forall k tech,
    Dict.get (init_technologies items d) k = Some tech -> resource_list tech = [].
Proof.
  revert d; induction items as [|[tech_id path] items IH]; intros d Hd; simpl.
  - exact Hd.
  - apply IH. intros k tech.
    destruct (key_eqb tech_id k) eqn:E.
    + rewrite (get_set_equal d tech_id _ k E). now intros [= <-].
    + rewrite (get_set_other d tech_id _ k E). apply Hd.
Qed.

Lemma no_resources_in_order (d : technologies) :
  (forall k tech, Dict.get d k = Some tech -> resource_list tech = []) ->
  resources_in_order d = [].
Proof.
  intros Hd. unfold resources_in_order.
  induction (Dict.keys d) as [|k ks IH]; simpl; [reflexivity |].
  rewrite IH, app_nil_r. unfold resources_of.
  destruct (Dict.get d k) as [tech|] eqn:E; [now apply (Hd k) | reflexivity].
Qed.

Section NothingDiscovered.

Context {FS : Type} `{FileSystem FS}.

Variable http_get : list request -> request -> result http_response.

(** X16.  When no response was matched, so that the mapping is the one
    [main] built from the catalog, the tally is 0 and the download phase
    returns at once: no request, no file, nothing printed, no exception. *)
Theorem nothing_discovered_nothing_downloaded
  (items : list (string * string)) (w : world FS) :
  count_benchmarks (init_technologies items [])
    (Dict.keys (init_technologies items [])) 0 = Ok 0
  /\ main_downloads http_get (init_technologies items []) w = (w, Ok tt).
Proof.
  assert (Hnone : resources_in_order (init_technologies items []) = []).
  { apply no_resources_in_order. apply init_technologies_empty. discriminate. }
  split.
  - rewrite count_benchmarks_total by (intros k; apply get_keys).
    fold (resources_in_order (init_technologies items [])). now rewrite Hnone.
  - rewrite main_downloads_sequence. unfold planned_downloads. now rewrite Hnone.
Qed.

End NothingDiscovered.

(** ** The catalog fetcher, item by item *)

Section CatalogRequests.

Context {FS : Type} `{FileSystem FS}.

Variable http_get : list request -> request -> result http_response.

Variable py_repr : json -> string.

Lemma sends_nothing_pure {A : Type} (r : result A) :
  sends_nothing (mlift (S := world FS) r).
Proof.
  intros w. reflexivity.
Qed.

Lemma sends_nothing_add_item (category_key : string) (item : json)
  (paths : technology_paths) :
  sends_nothing (add_item (FS := FS) py_repr category_key item paths).
Proof.
  unfold add_item.
  apply sends_nothing_bind; [apply sends_nothing_pure | intros title].
  apply sends_nothing_bind; [apply sends_nothing_pure | intros path].
  apply sends_nothing_bind; [apply sends_nothing_pure | intros id].
  apply sends_nothing_bind; [| intros _; intros w; reflexivity].
  unfold create_directory.
  apply sends_nothing_bind; [apply sends_nothing_on_fs | intros _].
  intros w. reflexivity.
Qed.

Lemma sends_nothing_add_items (category_key : string) (items : list json)
  (paths : technology_paths) :
  sends_nothing (add_items (FS := FS) py_repr category_key items paths).
Proof.
  revert paths; induction items as [|item items IH]; intros paths; simpl.
  - intros w. reflexivity.
  - apply sends_nothing_bind; [apply sends_nothing_add_item | intros paths'].
    apply IH.
Qed.

Lemma sends_nothing_add_categories (categories_dict : json) (ks : list string)
  (paths : technology_paths) :
  sends_nothing (add_categories (FS := FS) py_repr categories_dict ks paths).
Proof.
  revert paths; induction ks as [|k ks IH]; intros paths; simpl.
  - intros w. reflexivity.
  - apply sends_nothing_bind; [apply sends_nothing_pure | intros items_value].
    apply sends_nothing_bind; [apply sends_nothing_pure | intros items].
    apply sends_nothing_bind; [apply sends_nothing_add_items | intros paths'].
    apply IH.
Qed.

(** X17.  The catalog fetcher sends one request, the GET of the catalog
    endpoint with its fixed headers and no cookie, and never another,
    whether it returns or raises. *)
Theorem catalog_fetch_sends_one_request (w : world FS) :
  sent (fst (fetch_technology_categories http_get py_repr w))
  = (sent w ++ [catalog_request])%list.
Proof.
  unfold fetch_technology_categories.
  unfold mbind at 1, requests_get.
  destruct (http_get (sent w) catalog_request) as [response|e]; [| reflexivity].
  set (w1 := Build_world (fs w) (console w) (sent w ++ [catalog_request])).
  change (sent w ++ [catalog_request])%list with (sent w1).
  generalize w1.
  apply sends_nothing_bind; [apply sends_nothing_pure | intros response_json].
  apply sends_nothing_bind; [apply sends_nothing_pure | intros category_keys].
  apply sends_nothing_add_categories.
Qed.

(** X18.  When the request raises, when the body is not JSON, or when the
    JSON value is not an object, the fetcher raises that exception right
    after the request: no directory is made and nothing is printed. *)
Theorem catalog_must_be_a_json_object (w : world FS) (e : exn) :
  (try response <- http_get (sent w) catalog_request;
   try response_json <- json_body response;
   py_keys response_json)%result = Raise e ->
  fetch_technology_categories http_get py_repr w
  = (Build_world (fs w) (console w) (sent w ++ [catalog_request]), Raise e).
Proof.
  unfold fetch_technology_categories, json_roundtrip.
  unfold mbind at 1, requests_get.
  destruct (http_get (sent w) catalog_request) as [response|e1]; simpl;
    [| now intros [= ->]].
  unfold mbind at 1, mlift at 1.
  destruct (json_body response) as [response_json|e2]; simpl;
    [| now intros [= ->]].
  unfold mbind at 1, mlift at 1.
  destruct (py_keys response_json) as [ks|e3]; simpl; [discriminate |].
  now intros [= ->].
Qed.

End CatalogRequests.

Section CatalogItems.

Context {FS : Type} `{FileSystem FS}.

Variable py_repr : json -> string.

(** What a pass of the innermost loop did when it returned. *)
Lemma add_item_ok (category_key : string) (item : json)
  (paths paths' : technology_paths) (w w' : world FS) :
  add_item py_repr category_key item paths w = (w', Ok paths') ->
  exists title id,
    py_getitem item "title" = Ok (JStr title)
    /\ py_getitem item "id" = Ok id
    /\ paths' = Dict.set paths (py_str py_repr id) (Str.join category_key title)
    /\ fs_mkdir (Str.join category_key title) (fs w) = (fs w', Ok tt)
    /\ console w' = console w
    /\ sent w' = sent w.
Proof.
  unfold add_item. unfold mbind at 1, mlift at 1.
  destruct (py_getitem item "title") as [title_value|e]; [| discriminate].
  unfold mbind at 1, mlift at 1, py_path_join.
  destruct title_value as [| | |title| |]; try discriminate.
  unfold mbind at 1, mlift at 1.
  destruct (py_getitem item "id") as [id|e]; [| discriminate].
  unfold mbind at 1, create_directory. unfold mbind at 1. unfold on_fs.
  destruct (fs_mkdir (Str.join category_key title) (fs w)) as [d' [[]|e]] eqn:Hmkdir;
    [| discriminate].
  unfold mret. intros [= <- <-].
  exists title, id. simpl. repeat split; try reflexivity. exact Hmkdir.
Qed.

End CatalogItems.

Section CatalogDirectories.

Context {FS : Type} `{DirectoryLaws FS}.

Variable http_get : list request -> request -> result http_response.

Variable py_repr : json -> string.

Variable Q : string -> string -> Prop.




End CatalogDirectories.


Section CatalogComplete.

Context {FS : Type} `{DirectoryLaws FS}.

Variable py_repr : json -> string.






End CatalogComplete.

Section CatalogResult.

Context {FS : Type} `{DirectoryLaws FS}.

Variable http_get : list request -> request -> result http_response.

Variable py_repr : json -> string.


End CatalogResult.

(** ** The catalog fetcher, on the disk model *)

#[export] Instance DirectoryLaws_disk : DirectoryLaws disk.
Proof.
  split; simpl.
  - intros d d' path. unfold disk_mkdir, disk_exists.
    destruct (Dict.get d path) as [[|c]|] eqn:E; intros Heq; try discriminate;
      injection Heq as <-; [now rewrite E | now rewrite get_set_same].
  - intros d path q Hq. unfold disk_mkdir.
    destruct (Dict.get d path) as [[|c]|]; simpl; auto using disk_exists_set.
Qed.

Lemma disk_mkdir_dir (path : string) (d d' : disk) :
  disk_mkdir path d = (d', Ok tt) -> Dict.get d' path = Some Dir.
Proof.
  unfold disk_mkdir. destruct (Dict.get d path) as [[|c]|] eqn:E;
    intros Heq; try discriminate; injection Heq as <-;
    [exact E | apply get_set_same].
Qed.

Lemma keeps_entry_mkdir (path q : string) (n : node) :
  keeps_entry path n (on_fs (fs_mkdir q)).
Proof.
  intros w Hw. unfold on_fs. cbn [fs_mkdir FileSystem_disk]. unfold disk_mkdir.
  destruct (Dict.get (fs w) q) as [[|c]|] eqn:Eq; simpl; try assumption.
  destruct (key_eqb q path) eqn:E.
  - apply String.eqb_eq in E. subst q. congruence.
  - now rewrite (get_set_other (fs w) q Dir path E).
Qed.

Section CatalogAgain.

Variable py_repr : json -> string.

Lemma keeps_entry_pure {A : Type} (path : string) (n : node) (r : result A) :
  keeps_entry path n (mlift r).
Proof.
  intros w Hw. exact Hw.
Qed.

Lemma keeps_entry_add_item (path : string) (n : node) (category_key : string)
  (item : json) (paths : technology_paths) :
  keeps_entry path n (add_item py_repr category_key item paths).
Proof.
  unfold add_item.
  apply keeps_entry_bind; [apply keeps_entry_pure | intros title].
  apply keeps_entry_bind; [apply keeps_entry_pure | intros p].
  apply keeps_entry_bind; [apply keeps_entry_pure | intros id].
  apply keeps_entry_bind; [| intros _; intros w Hw; exact Hw].
  unfold create_directory.
  apply keeps_entry_bind; [apply keeps_entry_mkdir | intros _].
  intros w Hw. exact Hw.
Qed.

Lemma keeps_entry_add_items (path : string) (n : node) (category_key : string)
  (items : list json) (paths : technology_paths) :
  keeps_entry path n (add_items py_repr category_key items paths).
Proof.
  revert paths; induction items as [|item items IH]; intros paths; simpl.
  - intros w Hw. exact Hw.
  - apply keeps_entry_bind; [apply keeps_entry_add_item | intros paths'; apply IH].
Qed.

Lemma keeps_entry_add_categories (path : string) (n : node) (categories_dict : json)
  (ks : list string) (paths : technology_paths) :
  keeps_entry path n (add_categories py_repr categories_dict ks paths).
Proof.
  revert paths; induction ks as [|k ks IH]; intros paths; simpl.
  - intros w Hw. exact Hw.
  - apply keeps_entry_bind; [apply keeps_entry_pure | intros items_value].
    apply keeps_entry_bind; [apply keeps_entry_pure | intros items].
    apply keeps_entry_bind; [apply keeps_entry_add_items | intros paths'; apply IH].
Qed.

Lemma add_item_again (category_key : string) (item : json)
  (paths paths1 : technology_paths) (w w1 w2 : world disk) :
  add_item py_repr category_key item paths w = (w1, Ok paths1) ->
  same_directories w1 w2 ->
  add_item py_repr category_key item paths w2 = (w2, Ok paths1).
Proof.
  intros Hfirst Hsame.
  destruct (add_item_ok py_repr category_key item paths paths1 w w1 Hfirst)
    as (title & id & Htitle & Hid & -> & Hmkdir & _ & _).
  apply disk_mkdir_dir in Hmkdir. apply Hsame in Hmkdir.
  unfold add_item. unfold mbind at 1, mlift at 1. rewrite Htitle.
  unfold mbind at 1, mlift at 1, py_path_join.
  unfold mbind at 1, mlift at 1. rewrite Hid.
  unfold mbind at 1, create_directory. unfold mbind at 1. unfold on_fs.
  cbn [fs_mkdir FileSystem_disk]. unfold disk_mkdir. rewrite Hmkdir.
  unfold mret. now destruct w2.
Qed.

Lemma add_items_again (category_key : string) (items : list json)
  (paths paths1 : technology_paths) (w w1 w2 : world disk) :
  add_items py_repr category_key items paths w = (w1, Ok paths1) ->
  same_directories w1 w2 ->
  add_items py_repr category_key items paths w2 = (w2, Ok paths1).
Proof.
  revert paths w; induction items as [|item items IH]; intros paths w; simpl.
  - unfold mret. now intros [= <- <-] _.
  - unfold mbind.
    destruct (add_item py_repr category_key item paths w) as [wa [pa|e]] eqn:Ea;
      [| discriminate].
    intros Hrest Hsame.
    rewrite (add_item_again category_key item paths pa w wa w2 Ea).
    + now apply (IH pa wa).
    + intros p Hp. apply Hsame.
      pose proof (keeps_entry_add_items p Dir category_key items pa wa Hp) as Hkeep.
      now rewrite Hrest in Hkeep.
Qed.

Lemma add_categories_again (categories_dict : json) (ks : list string)
  (paths paths1 : technology_paths) (w w1 w2 : world disk) :
  add_categories py_repr categories_dict ks paths w = (w1, Ok paths1) ->
  same_directories w1 w2 ->
  add_categories py_repr categories_dict ks paths w2 = (w2, Ok paths1).
Proof.
  revert paths w; induction ks as [|k ks IH]; intros paths w; simpl.
  - unfold mret. now intros [= <- <-] _.
  - unfold mbind, mlift.
    destruct (py_getitem categories_dict k) as [items_value|e];
      [| intros Heq; discriminate Heq].
    destruct (py_iter items_value) as [items|e];
      [| intros Heq; discriminate Heq].
    destruct (add_items py_repr k items paths w) as [wa [pa|e]] eqn:Ea;
      [| discriminate].
    intros Hrest Hsame.
    rewrite (add_items_again k items paths pa w wa w2 Ea).
    + now apply (IH pa wa).
    + intros p Hp. apply Hsame.
      pose proof (keeps_entry_add_categories p Dir categories_dict ks pa wa Hp)
        as Hkeep.
      now rewrite Hrest in Hkeep.
Qed.

(** X20.  On the disk model the catalog phase is idempotent: when the
    fetcher has returned and the endpoint answers the next request as it
    answered the first, the fetcher returns the same mapping again and the
    disk is left as it is, every directory being there already. *)
Theorem second_fetch_makes_no_directory
  (http_get : list request -> request -> result http_response)
  (w w1 : world disk) (paths : technology_paths) :
  fetch_technology_categories http_get py_repr w = (w1, Ok paths) ->
  http_get (sent w1) catalog_request = http_get (sent w) catalog_request ->
  fetch_technology_categories http_get py_repr w1
  = (Build_world (fs w1) (console w1) (sent w1 ++ [catalog_request]), Ok paths).
Proof.
  unfold fetch_technology_categories, json_roundtrip, requests_get.
  intros Hfirst Hsame. unfold mbind at 1. rewrite Hsame.
  unfold mbind at 1 in Hfirst.
  destruct (http_get (sent w) catalog_request) as [response|e]; [| discriminate].
  unfold mbind, mlift in Hfirst. unfold mbind, mlift.
  destruct (json_body response) as [categories_dict|e]; [| discriminate].
  destruct (py_keys categories_dict) as [ks|e]; [| discriminate].
  apply (add_categories_again categories_dict ks [] paths
           (Build_world (fs w) (console w) (sent w ++ [catalog_request])) w1 _ Hfirst).
  intros p Hp. exact Hp.
Qed.

End CatalogAgain.

(** ** The further statements at concrete inputs *)

Lemma request_exception_opens_no_file_witness :
  download_benchmark_file Cases.unreachable (KStr "d1") Cases.bench_url
    Cases.bench_path "1/1" Scenario.empty_world
  = (Build_world [] [] [Cases.bench_request], Raise RequestException).
Proof.
  exact (request_exception_opens_no_file Cases.unreachable (KStr "d1")
           Cases.bench_url Cases.bench_path "1/1" Scenario.empty_world
           RequestException eq_refl eq_refl).
Defined.

Lemma second_run_downloads_nothing_witness :
  let http_get := Scenario.server 200 [] in
  let w1 := fst (main_downloads http_get Scenario.discovered_catalog
                   Scenario.ready_world) in
  main_downloads Cases.unreachable Scenario.discovered_catalog w1
  = (Build_world (fs w1)
       (console w1
          ++ map skip_notice (planned_downloads Scenario.discovered_catalog))
       (sent w1),
     Ok tt).
Proof.
  intros http_get w1.
  assert (Hfirst : main_downloads http_get Scenario.discovered_catalog
                     Scenario.ready_world = (w1, Ok tt))
    by (vm_compute; reflexivity).
  apply (second_run_downloads_nothing http_get Cases.unreachable
           Scenario.discovered_catalog Scenario.ready_world w1 Hfirst).
Defined.

Lemma download_writes_the_body_witness :
  let http_get := Scenario.server 200 [("Content-Length", "5")] in
  let w' := fst (download_benchmark_file http_get (KStr "d1") Cases.bench_url
                   Cases.bench_path "1/1" Cases.used_world) in
  raise_for_status (Scenario.answer 200 [("Content-Length", "5")]) = Ok tt
  /\ content_error (Scenario.answer 200 [("Content-Length", "5")]) = None
  /\ exists total,
       total_size_of (Scenario.answer 200 [("Content-Length", "5")]) = Ok total
       /\ fs_read (fs w') Cases.bench_path = Some (List.concat Scenario.pdf)
       /\ console w'
          = (console Cases.used_world
               ++ ProgressTask (Str.basename Cases.bench_path ++ " Downloading...")
                    total
               :: advances Scenario.pdf)%list
       /\ sent w' = (sent Cases.used_world ++ [Cases.bench_request])%list.
Proof.
  intros http_get w'.
  assert (Hrun : download_benchmark_file http_get (KStr "d1") Cases.bench_url
                   Cases.bench_path "1/1" Cases.used_world = (w', Ok tt))
    by (vm_compute; reflexivity).
  exact (download_writes_the_body http_get (KStr "d1") Cases.bench_url
           Cases.bench_path "1/1" Cases.used_world w'
           (Scenario.answer 200 [("Content-Length", "5")])
           eq_refl eq_refl Hrun).
Defined.

Lemma opened_file_is_never_retried_witness :
  let w' := fst (download_benchmark_file Cases.interrupted (KStr "d1")
                   Cases.bench_url Cases.bench_path "1/1" Cases.used_world) in
  fs_exists (fs w') Cases.bench_path = true
  /\ forall (http_get' : list request -> request -> result http_response)
       (document_id' : pykey) (download_url' progress_indicator' : string),
       download_benchmark_file http_get' document_id' download_url'
         Cases.bench_path progress_indicator' w'
       = (Build_world (fs w')
            (console w' ++
               [Print (carriage_return ++ progress_indicator'
                         ++ " File already exists: "
                         ++ Str.basename Cases.bench_path)])
            (sent w'),
          Ok tt).
Proof.
  exact (opened_file_is_never_retried Cases.interrupted (KStr "d1")
           Cases.bench_url Cases.bench_path "1/1" Cases.used_world
           {| status_code := 200;
              headers := [("Content-Length", "9")];
              json_body := Raise JSONDecodeError;
              content := Scenario.pdf;
              content_error := Some RequestException |}
           9%Z
           (fs Cases.used_world ++ [(Cases.bench_path, File [])])%list
           eq_refl eq_refl eq_refl eq_refl eq_refl).
Defined.

Lemma existing_entries_are_never_overwritten_witness :
  let d : technologies :=
    [("7", {| tech_path := "Operating Systems/Linux";
              resource_list :=
                [{| resource_id := KStr "d2";
                    resource_filename := "Operating Systems/Linux/guide.pdf";
                    resource_pdf_url := "https://learn.cisecurity.org/x2" |};
                 Cases.bench] |})] in
  Dict.get
    (fs (fst (main_downloads (Scenario.server 200 []) d Cases.used_world)))
    "Operating Systems/Linux/guide.pdf"
  = Some (File [Byte.x6f; Byte.x6c; Byte.x64]).
Proof.
  intros d.
  exact (existing_entries_are_never_overwritten (Scenario.server 200 []) d
           Cases.used_world "Operating Systems/Linux/guide.pdf"
           (File [Byte.x6f; Byte.x6c; Byte.x64]) eq_refl).
Defined.

Lemma extraction_is_faithful_witness :
  let json_data :=
    Scenario.latest
      [Scenario.document "d1" "/x1" "first.pdf";
       Scenario.document "d2" "/x2" "other.pdf";
       Scenario.document "d1" "/x3" "last.pdf"] in
  let info : document_info :=
    [(KStr "d1", {| pardot_id := JStr "/x3"; filename := JStr "last.pdf" |});
     (KStr "d2", {| pardot_id := JStr "/x2"; filename := JStr "other.pdf" |})] in
  exists documents kvs,
    all_documents json_data = Ok documents
    /\ read_documents documents = Ok kvs
    /\ (forall k e, In (k, e) kvs -> Dict.get info k <> None)
    /\ (forall k e, In (k, e) info ->
          exists k', In (k', e) kvs /\ key_eqb k k' = true)
    /\ List.length info <= List.length documents.
Proof.
  intros json_data info.
  exact (extraction_is_faithful json_data info eq_refl).
Defined.

Lemma distinct_ids_keep_response_order_witness :
  extract_document_info (Scenario.latest Scenario.three_documents)
  = Ok [(KStr "d1", {| pardot_id := JStr "/x1"; filename := JStr "bench.pdf" |});
        (KStr "d2", {| pardot_id := JStr "/x2"; filename := JStr "guide.pdf" |});
        (KStr "d3", {| pardot_id := JStr "/x3"; filename := JStr "notes.pdf" |})].
Proof.
  exact (distinct_ids_keep_response_order (Scenario.latest Scenario.three_documents)
           Scenario.three_documents _ eq_refl eq_refl
           (conj eq_refl (conj eq_refl (conj eq_refl I)))).
Defined.

Lemma unreadable_document_is_fatal_witness :
  extract_document_info
    (Scenario.latest
       [Scenario.document "d1" "/x1" "bench.pdf";
        Cases.nameless "d2" "/x2";
        Scenario.document "d3" "/x3" "notes.pdf"])
  = Raise KeyError.
Proof.
  exact (unreadable_document_is_fatal
           (Scenario.latest
              [Scenario.document "d1" "/x1" "bench.pdf";
               Cases.nameless "d2" "/x2";
               Scenario.document "d3" "/x3" "notes.pdf"])
           [Scenario.document "d1" "/x1" "bench.pdf"]
           [Scenario.document "d3" "/x3" "notes.pdf"]
           (Cases.nameless "d2" "/x2")
           [(KStr "d1", {| pardot_id := JStr "/x1"; filename := JStr "bench.pdf" |})]
           KeyError eq_refl eq_refl eq_refl).
Defined.

Lemma catalog_keys_cases (P : string -> Prop) :
  P "7" -> P "17" -> forall k, In k (Dict.keys Scenario.catalog) -> P k.
Proof.
  intros H7 H17 k [<- | [<- | []]]; assumption.
Qed.

Lemma unmatched_response_is_ignored_witness :
  process_benchmark_response Cases.foreign Scenario.catalog
  = (Scenario.catalog, Ok tt).
Proof.
  apply unmatched_response_is_ignored.
  apply catalog_keys_cases; reflexivity.
Defined.

Lemma unreadable_response_changes_nothing_witness :
  process_benchmark_response Cases.garbled Scenario.catalog
  = (Scenario.catalog, Raise JSONDecodeError).
Proof.
  apply (unreadable_response_changes_nothing Cases.garbled Scenario.catalog "7").
  - now left.
  - reflexivity.
  - now left.
Defined.

Lemma only_seven_matches :
  forall k', In k' (Dict.keys Scenario.catalog) -> k' <> "7" ->
    Str.endswith
      (response_url (Scenario.observed "7" Scenario.three_documents))
      (k' ++ "/benchmarks/latest") = false.
Proof.
  apply (catalog_keys_cases
           (fun k' => k' <> "7" ->
              Str.endswith
                (response_url (Scenario.observed "7" Scenario.three_documents))
                (k' ++ "/benchmarks/latest") = false)).
  - intros Hneq. now contradiction Hneq.
  - intros _. reflexivity.
Qed.

Lemma single_match_updates_one_technology_witness :
  let info : document_info :=
    [(KStr "d1", {| pardot_id := JStr "/x1"; filename := JStr "bench.pdf" |});
     (KStr "d2", {| pardot_id := JStr "/x2"; filename := JStr "guide.pdf" |});
     (KStr "d3", {| pardot_id := JStr "/x3"; filename := JStr "notes.pdf" |})] in
  process_benchmark_response (Scenario.observed "7" Scenario.three_documents)
    Scenario.catalog
  = (Dict.update Scenario.catalog "7"
       (add_records (fst (records_of "Operating Systems/Linux" info))),
     snd (records_of "Operating Systems/Linux" info)).
Proof.
  intros info.
  exact (single_match_updates_one_technology
           (Scenario.observed "7" Scenario.three_documents) Scenario.catalog "7"
           Scenario.linux (Scenario.latest Scenario.three_documents) info
           (conj eq_refl (conj eq_refl I)) eq_refl eq_refl only_seven_matches
           eq_refl eq_refl).
Defined.

Lemma bad_field_leaves_a_partial_list_witness :
  let documents :=
    [Scenario.document "d1" "/x1" "bench.pdf";
     Cases.numbered "d2" "guide.pdf";
     Scenario.document "d3" "/x3" "notes.pdf"] in
  process_benchmark_response (Scenario.observed "7" documents) Scenario.catalog
  = (Dict.update Scenario.catalog "7" (add_records [Cases.bench]),
     Raise TypeError).
Proof.
  intros documents.
  exact (bad_field_leaves_a_partial_list
           (Scenario.observed "7" documents) Scenario.catalog "7" Scenario.linux
           (Scenario.latest documents)
           [(KStr "d1", {| pardot_id := JStr "/x1"; filename := JStr "bench.pdf" |})]
           [(KStr "d3", {| pardot_id := JStr "/x3"; filename := JStr "notes.pdf" |})]
           (KStr "d2", {| pardot_id := JInt 5; filename := JStr "guide.pdf" |})
           [Cases.bench] TypeError
           (conj eq_refl (conj eq_refl I)) eq_refl eq_refl only_seven_matches
           eq_refl eq_refl eq_refl eq_refl).
Defined.

Lemma pass_only_appends_witness :
  let response := Scenario.observed "17" Scenario.three_documents in
  Dict.keys (fst (process_benchmark_response response Scenario.catalog))
  = Dict.keys Scenario.catalog
  /\ forall k tech, Dict.get Scenario.catalog k = Some tech ->
       exists rs,
         Dict.get (fst (process_benchmark_response response Scenario.catalog)) k
         = Some {| tech_path := tech_path tech;
                   resource_list := resource_list tech ++ rs |}.
Proof.
  intros response.
  exact (pass_only_appends response Scenario.catalog
           (conj eq_refl (conj eq_refl I))).
Defined.

Lemma tally_grows_by_matches_times_documents_witness :
  let response := Scenario.observed "17" Scenario.three_documents in
  let d' := fst (process_benchmark_response response Scenario.catalog) in
  List.length (resources_in_order d') = 0 + 2 * 3.
Proof.
  intros response d'.
  assert (Hprocess : process_benchmark_response response Scenario.catalog
                     = (d', Ok tt)) by (vm_compute; reflexivity).
  assert (Hinfo : extract_document_info (Scenario.latest Scenario.three_documents)
                  = Ok [(KStr "d1",
                         {| pardot_id := JStr "/x1"; filename := JStr "bench.pdf" |});
                        (KStr "d2",
                         {| pardot_id := JStr "/x2"; filename := JStr "guide.pdf" |});
                        (KStr "d3",
                         {| pardot_id := JStr "/x3"; filename := JStr "notes.pdf" |})])
    by reflexivity.
  exact (tally_grows_by_matches_times_documents response Scenario.catalog d'
           (Scenario.latest Scenario.three_documents) _
           (conj eq_refl (conj eq_refl I)) eq_refl Hinfo Hprocess).
Defined.

Lemma catalog_must_be_a_json_object_witness :
  fetch_technology_categories (Scenario.catalog_server 200 (Ok (JArr [])))
    Cases.no_repr Scenario.empty_world
  = (Build_world [] [] [catalog_request], Raise AttributeError).
Proof.
  exact (catalog_must_be_a_json_object (Scenario.catalog_server 200 (Ok (JArr [])))
           Cases.no_repr Scenario.empty_world AttributeError eq_refl).
Defined.


Lemma second_fetch_makes_no_directory_witness :
  let http_get := Scenario.catalog_server 200 (Ok Scenario.catalog_json) in
  let w1 : world disk :=
    Build_world [("Operating Systems/Linux", Dir)] [] [catalog_request] in
  fetch_technology_categories http_get Cases.no_repr w1
  = (Build_world [("Operating Systems/Linux", Dir)] []
       [catalog_request; catalog_request],
     Ok [("7", "Operating Systems/Linux")]).
Proof.
  intros http_get w1.
  exact (second_fetch_makes_no_directory Cases.no_repr http_get
           Scenario.empty_world w1 [("7", "Operating Systems/Linux")]
           eq_refl eq_refl).
Defined.
